(** * NASA Data Explorer: the data-normalisation logic of [streamlit_app.py]

    A shallow embedding of the parts of the Streamlit script that reshape
    decoded NASA JSON payloads: the NEO flattening loop, the Mars-weather
    row loop with its fetch wrapper, the rover-photo camera filter, the
    three-column grid loop and the EPIC image URL builder.

    Python values are decoded JSON values; Python exceptions are an explicit
    error result; loops that append to a list thread the list as state. *)

From Stdlib Require Import ZArith List String Ascii Lia Bool Arith PeanoNat.
From Stdlib Require Import Floats.PrimFloat Floats.FloatOps Floats.SpecFloat.
From Stdlib Require Import Numbers.Cyclic.Int63.Uint63.
Import ListNotations.
Open Scope string_scope.
Open Scope list_scope.

Set Warnings "-register-all,-inexact-float".

(** ** Exceptions and results *)

Inductive exn : Type :=
| KeyError
| IndexError
| TypeError
| ValueError
| AttributeError
| OverflowError.

Inductive res (A : Type) : Type :=
| Ok (a : A)
| Raise (e : exn).

Arguments Ok {A} a.
Arguments Raise {A} e.

Definition bind {A B : Type} (m : res A) (k : A -> res B) : res B :=
  match m with
  | Ok a => k a
  | Raise e => Raise e
  end.

Notation "x <- m ;; k" := (bind m (fun x => k))
  (at level 61, m at next level, right associativity).

Definition is_ok {A : Type} (m : res A) : bool :=
  match m with
  | Ok _ => true
  | Raise _ => false
  end.

(** A [for] loop whose body updates an accumulator and may raise: the first
    exception ends the loop and discards the accumulator. *)
Fixpoint for_each {A S : Type} (body : S -> A -> res S) (l : list A) (acc : S)
  : res S :=
  match l with
  | [] => Ok acc
  | x :: l' => acc' <- body acc x ;; for_each body l' acc'
  end.

(** ** Decoded JSON values

    What [response.json()] returns: [None], [bool], [int], [float], [str],
    [list] and [dict].  A [dict] keeps insertion order and is an association
    list; the decoder never yields two entries with one key. *)

Inductive json : Type :=
| JNull
| JBool (b : bool)
| JInt (z : Z)
| JFloat (f : float)
| JStr (s : string)
| JArr (l : list json)
| JObj (kvs : list (string * json)).

Definition dict := list (string * json).

Fixpoint dict_get (k : string) (kvs : dict) : option json :=
  match kvs with
  | [] => None
  | (k', v) :: rest => if String.eqb k' k then Some v else dict_get k rest
  end.

Definition dict_mem (k : string) (kvs : dict) : bool :=
  match dict_get k kvs with
  | Some _ => true
  | None => false
  end.


(** [bool(v)] *)
Definition truthy (v : json) : bool :=
  match v with
  | JNull => false
  | JBool b => b
  | JInt z => negb (Z.eqb z 0)
  | JFloat f => negb (PrimFloat.eqb f 0%float)
  | JStr s => negb (String.eqb s "")
  | JArr l => match l with [] => false | _ => true end
  | JObj kvs => match kvs with [] => false | _ => true end
  end.

(** [v[k]] for a [str] key [k] *)
Definition subscript_key (v : json) (k : string) : res json :=
  match v with
  | JObj kvs =>
      match dict_get k kvs with
      | Some x => Ok x
      | None => Raise KeyError
      end
  | _ => Raise TypeError
  end.

(** [v[i]] for an [int] index [i >= 0] *)
Definition subscript_idx (v : json) (i : nat) : res json :=
  match v with
  | JArr l =>
      match nth_error l i with
      | Some x => Ok x
      | None => Raise IndexError
      end
  | JStr s =>
      match String.get i s with
      | Some c => Ok (JStr (String c ""))
      | None => Raise IndexError
      end
  | JObj _ => Raise KeyError
  | _ => Raise TypeError
  end.

(** [v.get(k, default)] *)
Definition method_get (v : json) (k : string) (default : json) : res json :=
  match v with
  | JObj kvs =>
      match dict_get k kvs with
      | Some x => Ok x
      | None => Ok default
      end
  | _ => Raise AttributeError
  end.

(** [v.items()] *)
Definition method_items (v : json) : res dict :=
  match v with
  | JObj kvs => Ok kvs
  | _ => Raise AttributeError
  end.

(** [for x in v]: the elements of a list, the keys of a dict, the characters
    of a str. *)
Definition iterate (v : json) : res (list json) :=
  match v with
  | JArr l => Ok l
  | JObj kvs => Ok (map (fun kv => JStr (fst kv)) kvs)
  | JStr s => Ok (map (fun c => JStr (String c "")) (list_ascii_of_string s))
  | _ => Raise TypeError
  end.

(** [v == s] for a [str] [s] *)
Definition json_eq_str (v : json) (s : string) : bool :=
  match v with
  | JStr t => String.eqb t s
  | _ => false
  end.

Definition is_substring (needle hay : string) : bool :=
  match String.index 0 needle hay with
  | Some _ => true
  | None => false
  end.

(** [k in v] for a [str] [k] *)
Definition str_in (k : string) (v : json) : res bool :=
  match v with
  | JObj kvs => Ok (dict_mem k kvs)
  | JArr l => Ok (existsb (fun x => json_eq_str x k) l)
  | JStr s => Ok (is_substring k s)
  | _ => Raise TypeError
  end.

(** [item in v] where [v] is a dict: lists and dicts are unhashable, and of
    the hashable JSON values only a str equals a key.  The script evaluates
    this test on line 304 only after [v["sol_keys"]] succeeded on line 299,
    which needs a dict. *)
Definition key_in (item v : json) : res bool :=
  match v with
  | JObj kvs =>
      match item with
      | JStr k => Ok (dict_mem k kvs)
      | JArr _ | JObj _ => Raise TypeError
      | _ => Ok false
      end
  | _ => Raise TypeError
  end.

(** ** [str.split] and [str.replace] *)

(** [skip] counts the characters of a separator occurrence that are still
    to be dropped; [cur] is the piece being read. *)
Fixpoint split_go (sep s : string) (skip : nat) (cur : string) : list string :=
  match s with
  | EmptyString => [cur]
  | String c s' =>
      match skip with
      | S k => split_go sep s' k cur
      | O =>
          if String.prefix sep s
          then cur :: split_go sep s' (String.length sep - 1) ""
          else split_go sep s' 0 (cur ++ String c "")%string
      end
  end.

Definition str_split (s sep : string) : res (list string) :=
  if String.eqb sep "" then Raise ValueError else Ok (split_go sep s 0 "").

Fixpoint replace_go (old new s : string) (skip : nat) : string :=
  match s with
  | EmptyString => ""
  | String c s' =>
      match skip with
      | S k => replace_go old new s' k
      | O =>
          if String.prefix old s
          then (new ++ replace_go old new s' (String.length old - 1))%string
          else String c (replace_go old new s' 0)
      end
  end.

Fixpoint intersperse_all (new s : string) : string :=
  match s with
  | EmptyString => new
  | String c s' => (new ++ String c (intersperse_all new s'))%string
  end.

Definition str_replace (s old new : string) : string :=
  if String.eqb old "" then intersperse_all new s else replace_go old new s 0.

Definition list_index {A : Type} (l : list A) (i : nat) : res A :=
  match nth_error l i with
  | Some x => Ok x
  | None => Raise IndexError
  end.

Definition as_str (v : json) : res string :=
  match v with
  | JStr s => Ok s
  | _ => Raise AttributeError
  end.

(** A chain of subscripts such as [neo["estimated_diameter"]["kilometers"]]. *)
Inductive step : Type :=
| Key (k : string)
| Idx (i : nat).

Definition subscript (v : json) (s : step) : res json :=
  match s with
  | Key k => subscript_key v k
  | Idx i => subscript_idx v i
  end.

Fixpoint subscript_path (v : json) (p : list step) : res json :=
  match p with
  | [] => Ok v
  | s :: p' => x <- subscript v s ;; subscript_path x p'
  end.

(** ** Python built-ins the script calls

    [float(s)] and [int(s)] on a str, [float(n)] on an int and [str(v)] are
    the interpreter's; the development takes them as given.  [None] stands
    for [ValueError] (unparsable text) and [OverflowError] (an int too large
    for a float). *)
Record builtins : Type := {
  float_of_str : string -> option float;
  float_of_int : Z -> option float;
  int_of_str : string -> option Z;
  str_of_json : json -> string
}.

(** A small instance for evaluating the definitions on examples: plain
    digit strings for [int], a table of the literals the examples use for
    [float]. *)
Definition digit_value (c : ascii) : option Z :=
  let n := nat_of_ascii c in
  if (48 <=? n)%nat && (n <=? 57)%nat then Some (Z.of_nat (n - 48)) else None.

Fixpoint digits_go (s : string) (acc : Z) : option Z :=
  match s with
  | EmptyString => Some acc
  | String c s' =>
      match digit_value c with
      | Some d => digits_go s' (10 * acc + d)%Z
      | None => None
      end
  end.

Definition digits_to_Z (s : string) : option Z :=
  match s with
  | EmptyString => None
  | _ => digits_go s 0%Z
  end.

Definition example_float_of_str (s : string) : option float :=
  if String.eqb s "54000000.5" then Some 54000000.5%float
  else if String.eqb s "48000.25" then Some 48000.25%float
  else if String.eqb s "71000.0" then Some 71000%float
  else if String.eqb s "1200.5" then Some 1200.5%float
  else None.

Definition example_float_of_int (z : Z) : option float :=
  if (0 <=? z)%Z && (z <? 9007199254740992)%Z
  then Some (PrimFloat.of_uint63 (Uint63.of_Z z))
  else None.

Definition example_builtins : builtins := {|
  float_of_str := example_float_of_str;
  float_of_int := example_float_of_int;
  int_of_str := digits_to_Z;
  str_of_json := fun _ => "<object>"
|}.

(** ** Grid layout (lines 96-99 and 479-484) *)

Definition cols : nat := 3.

(** [range(start, stop, step)] for [step > 0] *)
Definition py_range (start stop step : nat) : list nat :=
  map (fun k => start + k * step) (seq 0 ((stop - start + step - 1) / step)).

(** [l[i:j]] for [0 <= i <= j] *)
Definition slice {A : Type} (l : list A) (i j : nat) : list A :=
  firstn (j - i) (skipn i l).

(** The successive values of [row_photos] / [row_images]. *)
Definition grid_rows {A : Type} (photos : list A) : list (list A) :=
  map (fun i => slice photos i (i + cols)) (py_range 0 (List.length photos) cols).

(** Line 480: [rows = (len(epic_data) + cols - 1) // cols] *)
Definition rows_needed (n : nat) : nat := (n + cols - 1) / cols.

(** ** NEO date range (lines 134-138)

    A [datetime.date] is its proleptic Gregorian ordinal, between 1
    (0001-01-01) and [MAXORDINAL] (9999-12-31); adding a [timedelta] that
    leaves the range raises [OverflowError]. *)

Definition MAXORDINAL : Z := 3652059.

Definition valid_date (d : Z) : Prop := (1 <= d <= MAXORDINAL)%Z.

Definition date_add_days (d n : Z) : res Z :=
  let r := (d + n)%Z in
  if (1 <=? r)%Z && (r <=? MAXORDINAL)%Z then Ok r else Raise OverflowError.

Definition clamp_date_range (start_date end_date : Z) : res (Z * Z) :=
  let date_difference := (end_date - start_date)%Z in
  if (7 <? date_difference)%Z
  then end_date' <- date_add_days start_date 7 ;; Ok (start_date, end_date')
  else Ok (start_date, end_date).

(** ** Rover photos (lines 88-93) *)

Definition camera_name (photo : json) : res json :=
  subscript_path photo [Key "camera"; Key "name"].

Definition hashable (v : json) : bool :=
  match v with
  | JArr _ | JObj _ => false
  | _ => true
  end.

(** Line 89: the names handed to [set(...)], in photo order.  The order in
    which the set is listed afterwards is the interpreter's. *)
Definition cameras (photos : list json) : res (list json) :=
  for_each
    (fun acc photo =>
       n <- camera_name photo ;;
       if hashable n then Ok (acc ++ [n]) else Raise TypeError)
    photos [].

(** Lines 92-93 *)
Definition filter_by_camera (selected_camera : string) (photos : list json)
  : res (list json) :=
  if negb (String.eqb selected_camera "All")
  then for_each
         (fun acc photo =>
            n <- camera_name photo ;;
            if json_eq_str n selected_camera
            then Ok (acc ++ [photo]) else Ok acc)
         photos []
  else Ok photos.

(** ** Fetching (lines 33-40)

    What [requests] does for one GET.  A body that is not JSON makes
    [response.json()] raise [requests.exceptions.JSONDecodeError], a
    [RequestException] since requests 2.27, and a plain [ValueError] in older
    releases. *)
Inductive http_outcome : Type :=
| Unreachable
| ErrorStatus
| MalformedBody (is_request_exception : bool)
| JsonBody (body : json).

(** [None] is [JNull]. *)
Definition fetch_nasa_data (o : http_outcome) : res json :=
  match o with
  | Unreachable => Ok JNull
  | ErrorStatus => Ok JNull
  | MalformedBody true => Ok JNull
  | MalformedBody false => Raise ValueError
  | JsonBody body => Ok body
  end.

(** The literal of lines 272-293. *)
Definition sample_weather_data : json :=
  JObj
    [ ("sol_keys",
       JArr [JStr "259"; JStr "260"; JStr "261"; JStr "262"; JStr "263";
             JStr "264"; JStr "265"]);
      ("259",
       JObj
         [ ("AT", JObj [ ("av", JFloat (-77.064)%float); ("ct", JInt 152488);
                         ("mn", JFloat (-99.429)%float);
                         ("mx", JFloat (-13.668)%float) ]);
           ("HWS", JObj [ ("av", JFloat 4.563%float); ("ct", JInt 74455);
                          ("mn", JFloat 0.156%float);
                          ("mx", JFloat 17.617%float) ]);
           ("PRE", JObj [ ("av", JFloat 761.006%float); ("ct", JInt 144432);
                          ("mn", JFloat 742.1498%float);
                          ("mx", JFloat 780.3891%float) ]);
           ("WD",
            JObj
              [ ("most_common",
                 JObj [ ("compass_degrees", JFloat 202.5%float);
                        ("compass_point", JStr "SSW");
                        ("compass_right", JFloat (-0.382684)%float);
                        ("compass_up", JFloat (-0.923879)%float);
                        ("ct", JInt 11582) ]);
                ("1",
                 JObj [ ("compass_degrees", JFloat 202.5%float);
                        ("compass_point", JStr "SSW");
                        ("compass_right", JFloat (-0.382684)%float);
                        ("compass_up", JFloat (-0.923879)%float);
                        ("ct", JInt 11582) ]);
                ("2",
                 JObj [ ("compass_degrees", JFloat 180%float);
                        ("compass_point", JStr "S");
                        ("compass_right", JFloat 0%float);
                        ("compass_up", JFloat (-1)%float);
                        ("ct", JInt 10306) ]);
                ("3",
                 JObj [ ("compass_degrees", JFloat 225%float);
                        ("compass_point", JStr "SW");
                        ("compass_right", JFloat (-0.707107)%float);
                        ("compass_up", JFloat (-0.707107)%float);
                        ("ct", JInt 9936) ]) ]);
           ("First_UTC", JStr "2019-08-19T08:03:59Z");
           ("Last_UTC", JStr "2019-08-20T08:43:34Z");
           ("Season", JStr "winter") ]);
      ("validity_checks",
       JObj
         [ ("259", JObj [ ("AT", JStr "Pass"); ("HWS", JStr "Pass");
                          ("PRE", JStr "Pass"); ("WD", JStr "Pass") ]) ]) ].

(** Lines 256-293: [try: data = fetch_nasa_data(...); return data] with a
    bare [except:] returning the sample data. *)
Definition get_mars_weather (o : http_outcome) : json :=
  match fetch_nasa_data o with
  | Ok data => data
  | Raise _ => sample_weather_data
  end.

Section Normalizers.

Variable py : builtins.

(** [float(v)] *)
Definition py_float (v : json) : res float :=
  match v with
  | JFloat f => Ok f
  | JInt z =>
      match float_of_int py z with
      | Some f => Ok f
      | None => Raise OverflowError
      end
  | JBool b => Ok (if b then 1%float else 0%float)
  | JStr s =>
      match float_of_str py s with
      | Some f => Ok f
      | None => Raise ValueError
      end
  | _ => Raise TypeError
  end.

(** [int(s)] for a str [s] *)
Definition py_int (s : string) : res Z :=
  match int_of_str py s with
  | Some n => Ok n
  | None => Raise ValueError
  end.

(** A value inside an f-string *)
Definition format_value (v : json) : string :=
  match v with
  | JStr s => s
  | _ => str_of_json py v
  end.

(** ** Near Earth Objects (lines 156-170) *)

Record neo_record : Type := {
  neo_id : json;
  neo_name : json;
  neo_date : string;
  diameter_min_km : json;
  diameter_max_km : json;
  is_hazardous : json;
  close_approach_date : json;
  miss_distance_km : float;
  relative_velocity_kph : float
}.

(** The dict display of lines 159-169; its values are evaluated top down. *)
Definition neo_info (date : string) (neo : json) : res neo_record :=
  v_id <- subscript_key neo "id" ;;
  v_name <- subscript_key neo "name" ;;
  v_min <- subscript_path neo
             [Key "estimated_diameter"; Key "kilometers";
              Key "estimated_diameter_min"] ;;
  v_max <- subscript_path neo
             [Key "estimated_diameter"; Key "kilometers";
              Key "estimated_diameter_max"] ;;
  v_haz <- subscript_key neo "is_potentially_hazardous_asteroid" ;;
  v_cad <- subscript_path neo
             [Key "close_approach_data"; Idx 0; Key "close_approach_date"] ;;
  v_miss <- subscript_path neo
              [Key "close_approach_data"; Idx 0; Key "miss_distance";
               Key "kilometers"] ;;
  f_miss <- py_float v_miss ;;
  v_vel <- subscript_path neo
             [Key "close_approach_data"; Idx 0; Key "relative_velocity";
              Key "kilometers_per_hour"] ;;
  f_vel <- py_float v_vel ;;
  Ok {| neo_id := v_id;
        neo_name := v_name;
        neo_date := date;
        diameter_min_km := v_min;
        diameter_max_km := v_max;
        is_hazardous := v_haz;
        close_approach_date := v_cad;
        miss_distance_km := f_miss;
        relative_velocity_kph := f_vel |}.

(** The inner loop, over the objects of one date. *)
Definition neo_day (neo_data : list neo_record) (entry : string * json)
  : res (list neo_record) :=
  let (date, neos) := entry in
  neo_list <- iterate neos ;;
  for_each
    (fun acc neo => info <- neo_info date neo ;; Ok (acc ++ [info]))
    neo_list neo_data.

(** The list [neo_data] after the loops of lines 157-170. *)
Definition neo_data (data : json) : res (list neo_record) :=
  by_date <- subscript_key data "near_earth_objects" ;;
  entries <- method_items by_date ;;
  for_each neo_day entries [].

(** ** Mars weather (lines 297-326) *)

Record weather_row : Type := {
  Sol : Z;
  Earth_Date : json;
  Season : json;
  Avg_Temp : json;
  Min_Temp : json;
  Max_Temp : json;
  Avg_Pressure : json;
  Avg_Wind_Speed : json;
  Max_Wind_Speed : json
}.

(** Lines 305-323 for one sol that is a key of [weather_data]. *)
Definition row (weather_data : json) (sol : string) : res weather_row :=
  sol_data <- subscript_key weather_data sol ;;
  temp_data <- method_get sol_data "AT" (JObj []) ;;
  pressure_data <- method_get sol_data "PRE" (JObj []) ;;
  wind_data <- method_get sol_data "HWS" (JObj []) ;;
  n <- py_int sol ;;
  v_date <- method_get sol_data "First_UTC" (JStr "Unknown") ;;
  v_season <- method_get sol_data "Season" (JStr "Unknown") ;;
  t_av <- method_get temp_data "av" JNull ;;
  t_mn <- method_get temp_data "mn" JNull ;;
  t_mx <- method_get temp_data "mx" JNull ;;
  p_av <- method_get pressure_data "av" JNull ;;
  w_av <- method_get wind_data "av" JNull ;;
  w_mx <- method_get wind_data "mx" JNull ;;
  Ok {| Sol := n;
        Earth_Date := v_date;
        Season := v_season;
        Avg_Temp := t_av;
        Min_Temp := t_mn;
        Max_Temp := t_mx;
        Avg_Pressure := p_av;
        Avg_Wind_Speed := w_av;
        Max_Wind_Speed := w_mx |}.

(** One turn of the loop of line 303.  A sol that passes the test of line
    304 is a str, see [key_in]. *)
Definition weather_step (weather_data : json) (weather_df : list weather_row)
  (sol : json) : res (list weather_row) :=
  present <- key_in sol weather_data ;;
  if present
  then match sol with
       | JStr k => r <- row weather_data k ;; Ok (weather_df ++ [r])
       | _ => Raise TypeError
       end
  else Ok weather_df.

(** The rows of [weather_df] after the loop of lines 299-326. *)
Definition weather_df (weather_data : json) : res (list weather_row) :=
  sols <- subscript_key weather_data "sol_keys" ;;
  sol_list <- iterate sols ;;
  for_each (weather_step weather_data) sol_list [].

(** What the Mars Weather page shows: the table built from the rows, or the
    message of lines 383-384. *)
Inductive weather_view : Type :=
| WeatherTable (rows : list weather_row)
| WeatherUnavailable.

(** Lines 295-297 and 382: [if weather_data and "sol_keys" in weather_data]. *)
Definition mars_weather_page (o : http_outcome) : res weather_view :=
  let weather_data := get_mars_weather o in
  if truthy weather_data
  then has_keys <- str_in "sol_keys" weather_data ;;
       if has_keys
       then df <- weather_df weather_data ;; Ok (WeatherTable df)
       else Ok WeatherUnavailable
  else Ok WeatherUnavailable.

(** ** EPIC (lines 408 and 434-440) *)

Definition image_type_param (image_type : string) : string :=
  if String.eqb image_type "Natural Color" then "natural" else "enhanced".

Definition image_date (selected_image : json) : res string :=
  d <- subscript_key selected_image "date" ;;
  s <- as_str d ;;
  parts <- str_split s " " ;;
  day <- list_index parts 0 ;;
  Ok (str_replace day "-" "/").

Definition image_time (selected_image : json) : res string :=
  d <- subscript_key selected_image "date" ;;
  s <- as_str d ;;
  parts <- str_split s " " ;;
  clock <- list_index parts 1 ;;
  pieces <- str_split clock "." ;;
  list_index pieces 0.

Definition image_url (type_param api_key : string) (selected_image : json)
  : res string :=
  v_date <- image_date selected_image ;;
  _ <- image_time selected_image ;;
  image_id <- subscript_key selected_image "identifier" ;;
  Ok ("https://api.nasa.gov/EPIC/archive/" ++ type_param ++ "/" ++ v_date
      ++ "/png/" ++ format_value image_id ++ ".png?api_key=" ++ api_key)%string.

End Normalizers.

(** ** Vocabulary of the statements *)

(** The rows an appending loop adds, one batch per element. *)
Fixpoint collect {A B : Type} (f : A -> res (list B)) (l : list A)
  : res (list B) :=
  match l with
  | [] => Ok []
  | x :: l' => ys <- f x ;; zs <- collect f l' ;; Ok (ys ++ zs)
  end.

(** The photo's camera name is [c]. *)
Definition has_camera (c : string) (photo : json) : bool :=
  match camera_name photo with
  | Ok n => json_eq_str n c
  | Raise _ => false
  end.

(** What one turn of the loops of lines 89 and 93 appends. *)
Definition camera_batch (photo : json) : res (list json) :=
  n <- camera_name photo ;;
  if hashable n then Ok [n] else Raise TypeError.

Definition filter_batch (c : string) (photo : json) : res (list json) :=
  n <- camera_name photo ;;
  Ok (if json_eq_str n c then [photo] else []).

(** The sol identifier names a data block of the payload. *)
Definition sol_present (kvs : dict) (sol : json) : bool :=
  match sol with
  | JStr k => dict_mem k kvs
  | _ => false
  end.

(** A sensor block, when the sol has one, is an object. *)
Definition sensor_ok (sol_data : dict) (code : string) : bool :=
  match dict_get code sol_data with
  | None => true
  | Some (JObj _) => true
  | Some _ => false
  end.

(** The sol has no [code] block, or the block has no [agg] field. *)
Definition aggregate_missing (sol_data : dict) (code agg : string) : bool :=
  match dict_get code sol_data with
  | None => true
  | Some (JObj block) => negb (dict_mem agg block)
  | Some _ => false
  end.

(** The character does not occur in the string. *)
Fixpoint no_char (c : ascii) (s : string) : bool :=
  match s with
  | EmptyString => true
  | String c' s' => negb (Ascii.eqb c' c) && no_char c s'
  end.

(** A year, month or day text: no hyphen and no space in it. *)
Definition date_part_ok (s : string) : bool :=
  no_char "-" s && no_char " " s.

(** Exact comparison of a float with an int, as Python does it. *)
Definition float_le_Z (f : float) (z : Z) : bool :=
  match Prim2SF f with
  | S754_zero _ => (0 <=? z)%Z
  | S754_infinity s => s
  | S754_nan => false
  | S754_finite s m e =>
      let v := if s then Z.neg m else Z.pos m in
      if (0 <=? e)%Z then (v * 2 ^ e <=? z)%Z else (v <=? z * 2 ^ (- e))%Z
  end.

Definition Z_le_float (z : Z) (f : float) : bool :=
  match Prim2SF f with
  | S754_zero _ => (z <=? 0)%Z
  | S754_infinity s => negb s
  | S754_nan => false
  | S754_finite s m e =>
      let v := if s then Z.neg m else Z.pos m in
      if (0 <=? e)%Z then (z <=? v * 2 ^ e)%Z else (z * 2 ^ (- e) <=? v)%Z
  end.

(** [a <= b] holds between two JSON numbers. *)
Definition num_le (a b : json) : bool :=
  match a, b with
  | JFloat x, JFloat y => PrimFloat.leb x y
  | JInt x, JInt y => (x <=? y)%Z
  | JFloat x, JInt y => float_le_Z x y
  | JInt x, JFloat y => Z_le_float x y
  | _, _ => false
  end.

Definition diameter_ordered (r : neo_record) : bool :=
  num_le (diameter_min_km r) (diameter_max_km r).

Definition km_min_path : list step :=
  [Key "estimated_diameter"; Key "kilometers"; Key "estimated_diameter_min"].

Definition km_max_path : list step :=
  [Key "estimated_diameter"; Key "kilometers"; Key "estimated_diameter_max"].

(** The source object's own kilometre bounds are ordered. *)
Definition source_ordered (neo : json) : bool :=
  match subscript_path neo km_min_path, subscript_path neo km_max_path with
  | Ok a, Ok b => num_le a b
  | _, _ => false
  end.

(** The object-entries of a feed, date by date. *)
Definition day_entries (entry : string * json) : list json :=
  match snd entry with
  | JArr l => l
  | _ => []
  end.

Definition all_entries (data : json) : list json :=
  match subscript_key data "near_earth_objects" with
  | Ok (JObj by_date) => List.concat (map day_entries by_date)
  | _ => []
  end.

Definition total_entries (data : json) : nat := List.length (all_entries data).

Section Validity.

Variable py : builtins.

Definition has_path (v : json) (p : list step) : bool :=
  is_ok (subscript_path v p).

Definition has_float (v : json) (p : list step) : bool :=
  is_ok (x <- subscript_path v p ;; py_float py x).

(** The schema of one NEO descriptor, as far as the normalizer reads it. *)
Definition valid_neo (neo : json) : bool :=
  has_path neo [Key "id"]
  && has_path neo [Key "name"]
  && has_path neo km_min_path
  && has_path neo km_max_path
  && has_path neo [Key "is_potentially_hazardous_asteroid"]
  && has_path neo [Key "close_approach_data"; Idx 0; Key "close_approach_date"]
  && has_float neo [Key "close_approach_data"; Idx 0; Key "miss_distance";
                    Key "kilometers"]
  && has_float neo [Key "close_approach_data"; Idx 0; Key "relative_velocity";
                    Key "kilometers_per_hour"].

Definition valid_day (entry : string * json) : bool :=
  match snd entry with
  | JArr l => forallb valid_neo l
  | _ => false
  end.

(** A feed: an object whose [near_earth_objects] maps each date to an array
    of descriptors. *)
Definition valid_feed (data : json) : bool :=
  match subscript_key data "near_earth_objects" with
  | Ok (JObj by_date) => forallb valid_day by_date
  | _ => false
  end.

(** What one object, and one date, append to [neo_data]. *)
Definition neo_batch (date : string) (neo : json) : res (list neo_record) :=
  info <- neo_info py date neo ;; Ok [info].

Definition day_batch (entry : string * json) : res (list neo_record) :=
  neo_list <- iterate (snd entry) ;;
  collect (neo_batch (fst entry)) neo_list.

(** A record carries the kilometre bounds of its source object. *)
Definition same_bounds (neo : json) (r : neo_record) : Prop :=
  subscript_path neo km_min_path = Ok (diameter_min_km r)
  /\ subscript_path neo km_max_path = Ok (diameter_max_km r)
  /\ diameter_ordered r = source_ordered neo.

(** A listed sol is hashable and, when it names an entry of the payload,
    the entry is an object, the identifier reads as an integer and the
    sensor blocks are objects. *)
Definition sol_data_ok (kvs : dict) (sol : json) : bool :=
  match sol with
  | JStr k =>
      match dict_get k kvs with
      | None => true
      | Some (JObj sol_data) =>
          match int_of_str py k with Some _ => true | None => false end
          && sensor_ok sol_data "AT"
          && sensor_ok sol_data "PRE"
          && sensor_ok sol_data "HWS"
      | Some _ => false
      end
  | JArr _ | JObj _ => false
  | _ => true
  end.

End Validity.

(** ** Example inputs *)

Definition example_approach : json :=
  JObj [ ("close_approach_date", JStr "2024-01-01");
         ("miss_distance", JObj [ ("kilometers", JStr "54000000.5") ]);
         ("relative_velocity",
          JObj [ ("kilometers_per_hour", JStr "48000.25") ]) ].

Definition later_approach : json :=
  JObj [ ("close_approach_date", JStr "2024-01-05");
         ("miss_distance", JObj [ ("kilometers", JStr "71000.0") ]);
         ("relative_velocity",
          JObj [ ("kilometers_per_hour", JStr "1200.5") ]) ].

Definition neo_fields (ident : string) (d_min d_max : float)
  (hazardous : bool) (approaches : list json) : dict :=
  [ ("id", JStr ident);
    ("name", JStr ("(" ++ ident ++ ")")%string);
    ("estimated_diameter",
     JObj [ ("kilometers",
             JObj [ ("estimated_diameter_min", JFloat d_min);
                    ("estimated_diameter_max", JFloat d_max) ]) ]);
    ("is_potentially_hazardous_asteroid", JBool hazardous);
    ("close_approach_data", JArr approaches) ].

Definition example_neo_fields : dict :=
  neo_fields "3542519" 0.25%float 0.5%float true
    [example_approach; later_approach].

(** Two objects on the first day, none on the second, one on the third. *)
Definition example_feed : json :=
  JObj
    [ ("element_count", JInt 3);
      ("near_earth_objects",
       JObj
         [ ("2024-01-01",
            JArr [ JObj example_neo_fields;
                   JObj (neo_fields "2000433" 0.5%float 1.5%float false
                           [example_approach]) ]);
           ("2024-01-02", JArr []);
           ("2024-01-03",
            JArr [ JObj (neo_fields "54016" 0.125%float 0.25%float false
                           [later_approach]) ]) ]) ].

(** A well-formed feed whose one object has its bounds the wrong way
    round. *)
Definition inverted_feed : json :=
  JObj
    [ ("near_earth_objects",
       JObj
         [ ("2024-01-01",
            JArr [ JObj (neo_fields "99942" 2%float 1%float false
                           [example_approach]) ]) ]) ].

Definition no_approach_fields : dict :=
  neo_fields "99942" 0.25%float 0.5%float false [].

(** Sol 101 has no wind block and no minimum temperature; sol 102 is
    listed without a data block. *)
Definition example_sol_data : dict :=
  [ ("AT", JObj [ ("av", JFloat (-60.5)%float); ("mx", JFloat (-10.25)%float) ]);
    ("PRE", JObj [ ("av", JFloat 750.5%float) ]);
    ("First_UTC", JStr "2019-03-14T00:00:00Z");
    ("Season", JStr "spring") ].

Definition example_payload_fields : dict :=
  [ ("sol_keys", JArr [JStr "101"; JStr "102"]);
    ("101", JObj example_sol_data) ].

Definition example_photo (ident : Z) (camera : string) : json :=
  JObj [ ("id", JInt ident);
         ("camera", JObj [ ("name", JStr camera) ]);
         ("img_src", JStr "https://mars.nasa.gov/image.jpg") ].

Definition example_photos : list json :=
  [ example_photo 1 "FHAZ"; example_photo 2 "MAST"; example_photo 3 "FHAZ";
    example_photo 4 "NAVCAM" ].

Definition example_epic_fields : dict :=
  [ ("identifier", JStr "20230714001751_01");
    ("caption", JStr "This image was taken by NASA's EPIC camera");
    ("date", JStr "2023-07-14 00:13:03") ].

(** * Further parts of the script *)

(** ** Grid cells (lines 96-115 and 484-487) *)

(** [enumerate(l)] *)
Definition enumerate {A : Type} (l : list A) : list (nat * A) :=
  combine (seq 0 (List.length l)) l.

(** [st.columns(n)]: the column slots, named by their index. *)
Definition st_columns (n : nat) : list nat := seq 0 n.

(** What one cell of the photo grid shows: the image and the values of the
    "Photo Details" expander. *)
Record photo_cell : Type := {
  cell_column : nat;
  cell_img_url : json;
  cell_id : json;
  cell_sol : json;
  cell_camera_full_name : json;
  cell_camera_name : json;
  cell_earth_date : json;
  cell_rover_status : json
}.

(** ** Rover photo page (lines 74-115) *)

(** Lines 75-79: [get_rover_photos] is the fetch helper on the rover's
    endpoint. *)
Definition rover_photos (o : http_outcome) : res json :=
  data <- fetch_nasa_data o ;;
  if truthy data then method_get data "photos" (JArr []) else Ok (JArr []).

Inductive rover_view : Type :=
| NoPhotos
| PhotoGrid (cells : list (list photo_cell)).

Section PhotoGrid.

(** [st.image(img_url, ...)] is Streamlit's; whether it accepts a value is
    taken as given. *)
Variable st_image : json -> res unit.

(** Lines 104-115: the body of one cell. *)
Definition photo_cell_body (col : nat) (photo : json) : res photo_cell :=
  img_url <- subscript_key photo "img_src" ;;
  _ <- st_image img_url ;;
  v_id <- subscript_key photo "id" ;;
  v_sol <- subscript_key photo "sol" ;;
  v_full <- subscript_path photo [Key "camera"; Key "full_name"] ;;
  v_name <- subscript_path photo [Key "camera"; Key "name"] ;;
  v_date <- subscript_key photo "earth_date" ;;
  v_status <- subscript_path photo [Key "rover"; Key "status"] ;;
  Ok {| cell_column := col;
        cell_img_url := img_url;
        cell_id := v_id;
        cell_sol := v_sol;
        cell_camera_full_name := v_full;
        cell_camera_name := v_name;
        cell_earth_date := v_date;
        cell_rover_status := v_status |}.

(** Lines 99-115: a photo of the row is shown in [columns[j]] when
    [j < len(columns)]. *)
Definition row_cells (row_photos : list json) : res (list photo_cell) :=
  let columns := st_columns cols in
  for_each
    (fun shown cell =>
       if (fst cell <? List.length columns)%nat
       then col <- list_index columns (fst cell) ;;
            c <- photo_cell_body col (snd cell) ;;
            Ok (shown ++ [c])
       else Ok shown)
    (enumerate row_photos) [].

(** Lines 96-115: the cells shown, row by row. *)
Definition photo_grid (photos : list json) : res (list (list photo_cell)) :=
  for_each
    (fun shown i =>
       cells <- row_cells (slice photos i (i + cols)) ;;
       Ok (shown ++ [cells]))
    (py_range 0 (List.length photos) cols) [].

(** Lines 82-115.  The generator of line 89 iterates [photos]; a truthy
    [photos] that is not a list makes its body raise, so past line 89 the
    photos are a list. *)
Definition rover_page (o : http_outcome) (selected_camera : string)
  : res rover_view :=
  photos <- rover_photos o ;;
  if negb (truthy photos) then Ok NoPhotos
  else photo_list <- iterate photos ;;
       _ <- cameras photo_list ;;
       shown <- filter_by_camera selected_camera photo_list ;;
       cells <- photo_grid shown ;;
       Ok (PhotoGrid cells).

(** The photo has every field the cell body reads and an image that
    [st.image] accepts. *)
Definition photo_complete (photo : json) : bool :=
  is_ok (img_url <- subscript_key photo "img_src" ;; st_image img_url)
  && has_path photo [Key "id"]
  && has_path photo [Key "sol"]
  && has_path photo [Key "camera"; Key "full_name"]
  && has_path photo [Key "camera"; Key "name"]
  && has_path photo [Key "earth_date"]
  && has_path photo [Key "rover"; Key "status"].

(** The cell of a complete photo. *)
Definition photo_cell_view (cell : nat * json) : photo_cell :=
  match photo_cell_body (fst cell) (snd cell) with
  | Ok c => c
  | Raise _ =>
      {| cell_column := fst cell;
         cell_img_url := JNull;
         cell_id := JNull;
         cell_sol := JNull;
         cell_camera_full_name := JNull;
         cell_camera_name := JNull;
         cell_earth_date := JNull;
         cell_rover_status := JNull |}
  end.

End PhotoGrid.

(** An [st.image] for the examples: it takes any str. *)
Definition example_st_image (v : json) : res unit :=
  match v with
  | JStr _ => Ok tt
  | _ => Raise TypeError
  end.

Definition example_full_photo (ident : Z) (camera : string) : json :=
  JObj [ ("id", JInt ident);
         ("sol", JInt 1000);
         ("camera", JObj [ ("id", JInt 20); ("name", JStr camera);
                           ("rover_id", JInt 5);
                           ("full_name", JStr ("Camera " ++ camera)%string) ]);
         ("img_src", JStr "https://mars.nasa.gov/image.jpg");
         ("earth_date", JStr "2015-05-30");
         ("rover", JObj [ ("id", JInt 5); ("name", JStr "Curiosity");
                          ("status", JStr "active") ]) ].

Definition example_full_photos : list json :=
  [ example_full_photo 1 "FHAZ"; example_full_photo 2 "MAST";
    example_full_photo 3 "FHAZ"; example_full_photo 4 "NAVCAM" ].

(** ** NEO date range with its warning (lines 134-138)

    The dates as in [clamp_date_range], and the texts
    [st.sidebar.warning] is called with. *)
Definition clamp_date_range_log (start_date end_date : Z)
  : res (list string * (Z * Z)) :=
  let date_difference := (end_date - start_date)%Z in
  if (7 <? date_difference)%Z
  then end_date' <- date_add_days start_date 7 ;;
       Ok (["Maximum date range is 7 days. Adjusting to first 7 days."],
           (start_date, end_date'))
  else Ok ([], (start_date, end_date)).

(** ** NEO date defaults (lines 124-132) *)

(** [datetime.now() - timedelta(days=7)] and [datetime.now()], as the dates
    the two inputs start with; [today] is the date of both readings of the
    clock. *)
Definition default_date_range (today : Z) : res (Z * Z) :=
  start_date <- date_add_days today (-7) ;;
  Ok (start_date, today).

(** ** Tables

    [pd.DataFrame(rows)] has the keys of the row dicts as columns; built
    from no rows it has no column at all, and [df[name]] then raises
    [KeyError].  Selecting rows keeps the columns. *)
Record frame (R : Type) : Type := {
  has_columns : bool;
  frame_rows : list R
}.

Arguments has_columns {R} f.
Arguments frame_rows {R} f.

Definition DataFrame {R : Type} (rows : list R) : frame R :=
  {| has_columns := match rows with [] => false | _ => true end;
     frame_rows := rows |}.

(** [df[name]] for one of the names of the row dicts *)
Definition column {R : Type} (df : frame R) : res (list R) :=
  if has_columns df then Ok (frame_rows df) else Raise KeyError.

Definition select_rows {R : Type} (keep : R -> bool) (df : frame R) : frame R :=
  {| has_columns := has_columns df;
     frame_rows := filter keep (frame_rows df) |}.

(** [v == True] *)
Definition eq_True (v : json) : bool :=
  match v with
  | JBool b => b
  | JInt z => (z =? 1)%Z
  | JFloat f => PrimFloat.eqb f 1%float
  | _ => false
  end.

(** ** EPIC page (lines 424-432 and 447-459) *)

(** [len(v)] *)
Definition py_len (v : json) : res nat :=
  match v with
  | JArr l => Ok (List.length l)
  | JObj kvs => Ok (List.length kvs)
  | JStr s => Ok (String.length s)
  | _ => Raise TypeError
  end.

(** Line 424: [epic_data and len(epic_data) > 0] *)
Definition has_images (epic_data : json) : res bool :=
  if truthy epic_data
  then n <- py_len epic_data ;; Ok (0 <? n)%nat
  else Ok false.

(** Lines 428-432; [image_index] is the slider's value. *)
Definition selected_image (epic_data : json) (image_index : nat) : res json :=
  n <- py_len epic_data ;;
  if (1 <? n)%nat
  then subscript_idx epic_data image_index
  else subscript_idx epic_data 0.

(** A value under a [:.2f] or [:.0f] format: a float and a boolean
    format, an int is converted to a float first and raises [OverflowError]
    when it is too large for one, a str raises [ValueError], anything else
    [TypeError]. *)
Definition format_f (py : builtins) (v : json) : res json :=
  match v with
  | JFloat _ | JBool _ => Ok v
  | JInt z =>
      match float_of_int py z with
      | Some _ => Ok v
      | None => Raise OverflowError
      end
  | JStr _ => Raise ValueError
  | _ => Raise TypeError
  end.

(** Lines 453-459: the numbers shown beside the image, before they are
    rounded: latitude and longitude, then the position when there is one. *)
Definition image_metadata (py : builtins) (image : json)
  : res (json * json * option (json * json * json)) :=
  lat <- subscript_path image [Key "centroid_coordinates"; Key "lat"] ;;
  lat' <- format_f py lat ;;
  lon <- subscript_path image [Key "centroid_coordinates"; Key "lon"] ;;
  lon' <- format_f py lon ;;
  has_position <- str_in "dscovr_j2000_position" image ;;
  if has_position
  then x <- subscript_path image [Key "dscovr_j2000_position"; Key "x"] ;;
       x' <- format_f py x ;;
       y <- subscript_path image [Key "dscovr_j2000_position"; Key "y"] ;;
       y' <- format_f py y ;;
       z <- subscript_path image [Key "dscovr_j2000_position"; Key "z"] ;;
       z' <- format_f py z ;;
       Ok (lat', lon', Some (x', y', z'))
  else Ok (lat', lon', None).

Inductive epic_view : Type :=
| EpicImage (url time : string)
| NoEpicImages.

Section Pages.

Variable py : builtins.

(** Lines 422-444: the image shown and the time of its heading. *)
Definition epic_page (o : http_outcome) (image_type api_key : string)
  (image_index : nat) : res epic_view :=
  epic_data <- fetch_nasa_data o ;;
  found <- has_images epic_data ;;
  if found
  then image <- selected_image epic_data image_index ;;
       url <- image_url py (image_type_param image_type) api_key image ;;
       time <- image_time image ;;
       Ok (EpicImage url time)
  else Ok NoEpicImages.

(** Lines 486-498: one image of the timelapse: its column, its URL and its
    caption time. *)
Definition timelapse_cell (type_param api_key : string) (columns : list nat)
  (cell : nat * json) : res (nat * string * string) :=
  col <- list_index columns (fst cell) ;;
  img_date <- image_date (snd cell) ;;
  img_time <- image_time (snd cell) ;;
  img_id <- subscript_key (snd cell) "identifier" ;;
  Ok (col,
      ("https://api.nasa.gov/EPIC/archive/" ++ type_param ++ "/" ++ img_date
       ++ "/png/" ++ format_value py img_id ++ ".png?api_key=" ++ api_key)%string,
      img_time).

(** Lines 482-498 *)
Definition timelapse (type_param api_key : string) (epic_data : list json)
  : res (list (list (nat * string * string))) :=
  for_each
    (fun shown i =>
       let row_images := slice epic_data i (i + cols) in
       let columns := st_columns cols in
       cells <- for_each
                  (fun acc cell =>
                     c <- timelapse_cell type_param api_key columns cell ;;
                     Ok (acc ++ [c]))
                  (enumerate row_images) [] ;;
       Ok (shown ++ [cells]))
    (py_range 0 (List.length epic_data) cols) [].

(** Lines 151-189: the table of the NEO page up to the subscript
    [df["diameter_max_km"]] that sizes the slider; [None] when the page
    stays blank. *)
Definition neo_frame (o : http_outcome) (show_hazardous_only : bool)
  : res (option (frame neo_record)) :=
  data <- fetch_nasa_data o ;;
  if truthy data
  then records <- neo_data py data ;;
       let df := DataFrame records in
       df' <- (if show_hazardous_only
               then _ <- column df ;;
                    Ok (select_rows (fun r => eq_True (is_hazardous r)) df)
               else Ok df) ;;
       _ <- column df' ;;
       Ok (Some df')
  else Ok None.

(** Line 329 rewrites the column [weather_df["Earth Date"]]; what pandas
    makes of the dates is [fmt]. *)
Variable fmt : list weather_row -> res (list weather_row).

Definition format_earth_dates (rows : list weather_row)
  : res (list weather_row) :=
  _ <- column (DataFrame rows) ;;
  fmt rows.

(** Lines 295-333: the table the page displays. *)
Definition mars_weather_table (o : http_outcome) : res weather_view :=
  shown <- mars_weather_page py o ;;
  match shown with
  | WeatherTable rows =>
      rows' <- format_earth_dates rows ;; Ok (WeatherTable rows')
  | WeatherUnavailable => Ok WeatherUnavailable
  end.

End Pages.

(** ** Vocabulary of the further statements *)

(** The value the row shows for one aggregate of one sensor. *)
Definition reading (sol_data : dict) (code agg : string) : json :=
  match dict_get code sol_data with
  | Some (JObj block) =>
      match dict_get agg block with
      | Some v => v
      | None => JNull
      end
  | _ => JNull
  end.

Definition get_default (sol_data : dict) (k : string) (default : json) : json :=
  match dict_get k sol_data with
  | Some v => v
  | None => default
  end.

(** The objects of a feed, each with the key of its day. *)
Definition dated_entries (data : json) : list (string * json) :=
  match subscript_key data "near_earth_objects" with
  | Ok (JObj by_date) =>
      List.concat
        (map (fun entry => map (pair (fst entry)) (day_entries entry)) by_date)
  | _ => []
  end.

(** A record carries the day, identifier, name and flag of its source. *)
Definition same_identity (src : string * json) (r : neo_record) : Prop :=
  neo_date r = fst src
  /\ subscript_key (snd src) "id" = Ok (neo_id r)
  /\ subscript_key (snd src) "name" = Ok (neo_name r)
  /\ subscript_key (snd src) "is_potentially_hazardous_asteroid"
     = Ok (is_hazardous r).

Definition url_of (c : nat * string * string) : string := snd (fst c).
Definition column_of (c : nat * string * string) : nat := fst (fst c).

(** One URL per image, in order. *)
Definition url_batch (py : builtins) (type_param api_key : string)
  (image : json) : res (list string) :=
  u <- image_url py type_param api_key image ;; Ok [u].

(** What the timelapse shows for an image whose URL and time can be
    built. *)
Definition cell_view (py : builtins) (type_param api_key : string)
  (cell : nat * json) : nat * string * string :=
  (fst cell,
   match image_url py type_param api_key (snd cell) with
   | Ok u => u
   | Raise _ => ""
   end,
   match image_time (snd cell) with
   | Ok t => t
   | Raise _ => ""
   end).

(** The character of a date segment: a hyphen becomes a slash. *)
Definition slash_for_hyphen (c : ascii) : ascii :=
  if Ascii.eqb c "-" then "/"%char else c.

(** An empty text, or a dot followed by text without a space. *)
Definition fraction_ok (rest : string) : bool :=
  match rest with
  | EmptyString => true
  | String c frac => Ascii.eqb c "." && no_char " " frac
  end.

Definition example_images : list json :=
  [ JObj [ ("identifier", JStr "20230714001751_01");
           ("date", JStr "2023-07-14 00:13:03") ];
    JObj [ ("identifier", JStr "20230714020554_01");
           ("date", JStr "2023-07-14 02:01:05.250") ];
    JObj [ ("identifier", JStr "20230714035356_01");
           ("date", JStr "2023-07-14 03:49:08") ];
    JObj [ ("identifier", JStr "20230714054159_01");
           ("date", JStr "2023-07-14 05:37:10") ] ].

(** * Properties *)

(** ** Grid layout *)

Lemma grid_rows_eq {A : Type} (l : list A) :
  grid_rows l
  = map (fun k => firstn cols (skipn (k * cols) l))
        (seq 0 (rows_needed (List.length l))).
Proof.
  unfold grid_rows, py_range, rows_needed, slice.
  rewrite map_map, Nat.sub_0_r.
  apply map_ext; intro k.
  replace (0 + k * cols + cols - (0 + k * cols)) with cols by lia.
  reflexivity.
Qed.

Lemma rows_needed_bounds (n : nat) :
  n <= cols * rows_needed n /\ cols * rows_needed n < n + cols.
Proof.
  unfold rows_needed, cols.
  pose proof (Nat.div_mod_eq (n + 3 - 1) 3) as E.
  pose proof (Nat.mod_upper_bound (n + 3 - 1) 3) as U.
  lia.
Qed.

Lemma chunks_concat {A : Type} (n : nat) :
  forall l : list A,
    List.length l <= cols * n ->
    List.concat (map (fun k => firstn cols (skipn (k * cols) l)) (seq 0 n)) = l.
Proof.
  induction n as [|n IH]; intros l Hl.
  - destruct l; [reflexivity | simpl in Hl; lia].
  - cbn [seq map List.concat].
    rewrite <- seq_shift, map_map.
    rewrite (map_ext _ (fun k => firstn cols (skipn (k * cols) (skipn cols l)))).
    + rewrite IH.
      * apply firstn_skipn.
      * rewrite length_skipn. lia.
    + intro k. rewrite skipn_skipn.
      replace (S k * cols) with (k * cols + cols) by lia.
      reflexivity.
Qed.

Lemma chunk_length {A : Type} (l : list A) (k : nat) :
  List.length (firstn cols (skipn (k * cols) l))
  = Nat.min cols (List.length l - k * cols).
Proof. rewrite length_firstn, length_skipn. reflexivity. Qed.

(** C7: grouping a sequence of length L into rows of 3 gives ceil(L/3)
    groups (the least n with L <= 3n, which is also the [rows] of line 480),
    every group is non-empty and has at most 3 elements, every group but the
    last has exactly 3, and the groups concatenated in order are the
    sequence itself. *)
Theorem grid_rows_partition {A : Type} (photos : list A) :
  let groups := grid_rows photos in
  let L := List.length photos in
  List.length groups = rows_needed L
  /\ L <= 3 * List.length groups < L + 3
  /\ Forall (fun g => g <> [] /\ List.length g <= 3) groups
  /\ (forall k, S k < List.length groups -> List.length (nth k groups []) = 3)
  /\ List.concat groups = photos.
Proof.
  cbn zeta.
  pose proof (rows_needed_bounds (List.length photos)) as [Hlo Hhi].
  assert (Hlen : List.length (grid_rows photos)
                 = rows_needed (List.length photos)).
  { rewrite grid_rows_eq, length_map, length_seq. reflexivity. }
  rewrite Hlen. change cols with 3 in Hlo, Hhi.
  repeat split; try lia.
  - rewrite grid_rows_eq. apply Forall_forall. intros g Hg.
    apply in_map_iff in Hg. destruct Hg as [k [<- Hk]].
    apply in_seq in Hk.
    assert (Hc : List.length (firstn cols (skipn (k * cols) photos)) <> 0
                 /\ List.length (firstn cols (skipn (k * cols) photos)) <= 3).
    { rewrite chunk_length. change cols with 3. lia. }
    destruct Hc as [Hne Hle]. split; [| exact Hle].
    intro E. rewrite E in Hne. apply Hne. reflexivity.
  - intros k Hk. rewrite grid_rows_eq.
    rewrite (nth_indep _ [] (firstn cols (skipn (0 * cols) photos)))
      by (rewrite length_map, length_seq; lia).
    rewrite (map_nth (fun k => firstn cols (skipn (k * cols) photos))).
    rewrite seq_nth by lia.
    rewrite chunk_length. change cols with 3. lia.
  - rewrite grid_rows_eq. apply chunks_concat. exact Hlo.
Qed.

(** ** NEO date range *)

(** C5: when the selected end date is more than 7 days after the start
    date, the request uses the start date and the start date plus exactly 7
    days (the addition cannot leave the calendar); otherwise both dates are
    used unchanged. *)
Theorem clamp_date_range_spec (start_date end_date : Z) :
  valid_date start_date ->
  valid_date end_date ->
  ((7 < end_date - start_date)%Z ->
   clamp_date_range start_date end_date = Ok (start_date, (start_date + 7)%Z))
  /\ ((end_date - start_date <= 7)%Z ->
      clamp_date_range start_date end_date = Ok (start_date, end_date)).
Proof.
  unfold valid_date, clamp_date_range, date_add_days, MAXORDINAL.
  intros Hs He. split; intro Hd.
  - apply Z.ltb_lt in Hd. rewrite Hd. cbn [bind].
    apply Z.ltb_lt in Hd.
    assert (H1 : (1 <=? start_date + 7)%Z = true) by (apply Z.leb_le; lia).
    assert (H2 : (start_date + 7 <=? 3652059)%Z = true)
      by (apply Z.leb_le; lia).
    rewrite H1, H2. reflexivity.
  - assert (H : (7 <? end_date - start_date)%Z = false)
      by (apply Z.ltb_ge; lia).
    rewrite H. reflexivity.
Qed.

(** ** Appending loops *)

Lemma for_each_collect {A B : Type}
  (body : list B -> A -> res (list B)) (f : A -> res (list B)) :
  (forall acc x, body acc x = (ys <- f x ;; Ok (acc ++ ys))) ->
  forall l acc,
    for_each body l acc = (zs <- collect f l ;; Ok (acc ++ zs)).
Proof.
  intros Hbody. induction l as [|x l IH]; intro acc; cbn [for_each collect bind].
  - rewrite app_nil_r. reflexivity.
  - rewrite Hbody. destruct (f x) as [ys|e]; cbn [bind]; [| reflexivity].
    rewrite IH. destruct (collect f l) as [zs|e]; cbn [bind]; [| reflexivity].
    rewrite app_assoc. reflexivity.
Qed.

Lemma collect_ok_all {A B : Type} (f : A -> res (list B)) (l : list A) zs :
  collect f l = Ok zs -> Forall (fun x => is_ok (f x) = true) l.
Proof.
  revert zs. induction l as [|x l IH]; intros zs H; [constructor |].
  cbn [collect] in H. destruct (f x) as [ys|e] eqn:E; cbn [bind] in H;
    [| discriminate].
  destruct (collect f l) as [zs'|e] eqn:E'; cbn [bind] in H; [| discriminate].
  constructor; [rewrite E; reflexivity | eapply IH; reflexivity].
Qed.

Lemma collect_raises {A B : Type} (f : A -> res (list B)) (l : list A) x :
  In x l -> is_ok (f x) = false -> is_ok (collect f l) = false.
Proof.
  induction l as [|y l IH]; intros Hin Hx; [contradiction |].
  cbn [collect]. destruct Hin as [-> | Hin].
  - destruct (f x); [discriminate | reflexivity].
  - destruct (f y); cbn [bind]; [| reflexivity].
    specialize (IH Hin Hx). destruct (collect f l); [discriminate | reflexivity].
Qed.

(** ** Rover photos *)

Lemma cameras_collect (photos : list json) :
  cameras photos = collect camera_batch photos.
Proof.
  unfold cameras. rewrite (for_each_collect _ camera_batch).
  - destruct (collect camera_batch photos); reflexivity.
  - intros acc x. unfold camera_batch.
    destruct (camera_name x) as [n|e]; cbn [bind]; [| reflexivity].
    destruct (hashable n); reflexivity.
Qed.

Lemma cameras_ok_names (photos names : list json) :
  cameras photos = Ok names ->
  Forall (fun p => is_ok (camera_name p) = true) photos.
Proof.
  rewrite cameras_collect. intro H. apply collect_ok_all in H.
  eapply Forall_impl; [| exact H].
  intros p Hp. unfold camera_batch in Hp.
  destruct (camera_name p); [reflexivity | discriminate].
Qed.

Lemma filter_collect (c : string) (photos : list json) :
  Forall (fun p => is_ok (camera_name p) = true) photos ->
  collect (filter_batch c) photos = Ok (filter (has_camera c) photos).
Proof.
  induction 1 as [|p l Hp Hl IH]; [reflexivity |].
  cbn [collect filter]. rewrite IH. unfold filter_batch, has_camera.
  destruct (camera_name p) as [n|e]; [| discriminate]. cbn [bind].
  destruct (json_eq_str n c); reflexivity.
Qed.

(** C8: with the selector "All" the camera filter returns the photo
    sequence itself; with any other selector c, once the camera names of
    line 89 could be listed, it returns exactly the photos whose camera name
    equals c, in their original order. *)
Theorem filter_by_camera_spec (photos : list json) :
  filter_by_camera "All" photos = Ok photos
  /\ forall (c : string) (names : list json),
       c <> "All" ->
       cameras photos = Ok names ->
       filter_by_camera c photos = Ok (filter (has_camera c) photos).
Proof.
  split; [reflexivity |].
  intros c names Hc Hnames. unfold filter_by_camera.
  apply String.eqb_neq in Hc. rewrite Hc. cbn [negb].
  rewrite (for_each_collect _ (filter_batch c)).
  - rewrite filter_collect by (eapply cameras_ok_names; eassumption).
    reflexivity.
  - intros acc x. unfold filter_batch.
    destruct (camera_name x) as [n|e]; cbn [bind]; [| reflexivity].
    destruct (json_eq_str n c); [reflexivity | rewrite app_nil_r; reflexivity].
Qed.

(** ** Near Earth Objects *)

Ltac bind_ok H :=
  match type of H with
  | bind ?m _ = Ok _ =>
      let E := fresh "E" in
      destruct m eqn:E; cbn [bind] in H; [| discriminate H]
  end.

Ltac split_andb H :=
  repeat match type of H with
    | (_ && _)%bool = true =>
        let H' := fresh "V" in
        apply andb_true_iff in H; destruct H as [H H']
    end.



Lemma neo_day_batch (py : builtins) (acc : list neo_record)
  (entry : string * json) :
  neo_day py acc entry = (ys <- day_batch py entry ;; Ok (acc ++ ys)).
Proof.
  destruct entry as [date neos]. unfold neo_day, day_batch. cbn [fst snd].
  destruct (iterate neos) as [l|e]; cbn [bind]; [| reflexivity].
  rewrite (for_each_collect _ (neo_batch py date)); [reflexivity |].
  intros a x. unfold neo_batch.
  destruct (neo_info py date x); reflexivity.
Qed.

Lemma neo_data_collect (py : builtins) (data : json) :
  neo_data py data
  = (by_date <- subscript_key data "near_earth_objects" ;;
     entries <- method_items by_date ;;
     collect (day_batch py) entries).
Proof.
  unfold neo_data.
  destruct (subscript_key data "near_earth_objects") as [m|e]; cbn [bind];
    [| reflexivity].
  destruct (method_items m) as [entries|e]; cbn [bind]; [| reflexivity].
  rewrite (for_each_collect _ (day_batch py)) by (apply neo_day_batch).
  destruct (collect (day_batch py) entries); reflexivity.
Qed.

Lemma valid_neo_info (py : builtins) (date : string) (neo : json) :
  valid_neo py neo = true ->
  exists r, neo_info py date neo = Ok r /\ same_bounds neo r.
Proof.
  unfold valid_neo, has_path, has_float, km_min_path, km_max_path.
  intro H. split_andb H.
  unfold neo_info, same_bounds, diameter_ordered, source_ordered,
    km_min_path, km_max_path.
  cbn [subscript_path subscript] in *.
  destruct (subscript_key neo "id") as [v_id|]; [| discriminate].
  destruct (subscript_key neo "name") as [v_name|]; [| discriminate].
  cbn [bind] in *.
  destruct (x <- subscript_key neo "estimated_diameter" ;;
            y <- subscript_key x "kilometers" ;;
            z <- subscript_key y "estimated_diameter_min" ;; Ok z)
    as [v_min|]; [| discriminate].
  destruct (x <- subscript_key neo "estimated_diameter" ;;
            y <- subscript_key x "kilometers" ;;
            z <- subscript_key y "estimated_diameter_max" ;; Ok z)
    as [v_max|]; [| discriminate].
  destruct (subscript_key neo "is_potentially_hazardous_asteroid")
    as [v_haz|]; [| discriminate].
  cbn [bind] in *.
  destruct (x <- subscript_key neo "close_approach_data" ;;
            y <- subscript_idx x 0 ;;
            z <- subscript_key y "close_approach_date" ;; Ok z)
    as [v_cad|]; [| discriminate].
  cbn [bind] in *.
  destruct (x <- subscript_key neo "close_approach_data" ;;
            y <- subscript_idx x 0 ;;
            z <- subscript_key y "miss_distance" ;;
            w <- subscript_key z "kilometers" ;; Ok w)
    as [v_miss|]; [| discriminate].
  cbn [bind] in *.
  destruct (py_float py v_miss) as [f_miss|]; [| discriminate].
  destruct (x <- subscript_key neo "close_approach_data" ;;
            y <- subscript_idx x 0 ;;
            z <- subscript_key y "relative_velocity" ;;
            w <- subscript_key z "kilometers_per_hour" ;; Ok w)
    as [v_vel|]; [| discriminate].
  cbn [bind] in *.
  destruct (py_float py v_vel) as [f_vel|]; [| discriminate].
  eexists. split; [reflexivity |].
  cbn. repeat split; reflexivity.
Qed.

Lemma valid_neos_collect (py : builtins) (date : string) (l : list json) :
  forallb (valid_neo py) l = true ->
  exists rs, collect (neo_batch py date) l = Ok rs
             /\ Forall2 same_bounds l rs.
Proof.
  induction l as [|neo l IH]; intro H.
  - exists []. split; [reflexivity | constructor].
  - cbn [forallb] in H. apply andb_true_iff in H. destruct H as [Hn Hl].
    destruct (valid_neo_info py date neo Hn) as [r [Hr Hb]].
    destruct (IH Hl) as [rs [Hrs HF]].
    exists (r :: rs). split; [| constructor; assumption].
    cbn [collect]. unfold neo_batch at 1. rewrite Hr. cbn [bind].
    rewrite Hrs. reflexivity.
Qed.

Lemma valid_days_collect (py : builtins) (entries : dict) :
  forallb (valid_day py) entries = true ->
  exists rs, collect (day_batch py) entries = Ok rs
             /\ Forall2 same_bounds
                  (List.concat (map day_entries entries)) rs.
Proof.
  induction entries as [|[date neos] entries IH]; intro H.
  - exists []. split; [reflexivity | constructor].
  - cbn [forallb] in H. apply andb_true_iff in H. destruct H as [Hd Hl].
    unfold valid_day in Hd. cbn [snd] in Hd.
    destruct neos as [| | | | |l|]; try discriminate.
    destruct (valid_neos_collect py date l Hd) as [rs1 [H1 F1]].
    destruct (IH Hl) as [rs2 [H2 F2]].
    exists (rs1 ++ rs2). split.
    + cbn [collect]. unfold day_batch at 1. cbn [fst snd iterate bind].
      rewrite H1. cbn [bind]. rewrite H2. reflexivity.
    + cbn [map List.concat]. unfold day_entries at 1. cbn [snd].
      apply Forall2_app; assumption.
Qed.

(** C2 (amended): for every feed whose [near_earth_objects] maps each date
    to an array of well-formed descriptors, N in total, the normalizer
    produces exactly N records, in feed order, and each record carries the
    kilometre diameter bounds of its source object unchanged; so a record
    has diameter_min_km <= diameter_max_km exactly when its source object
    has. *)
Theorem neo_data_one_record_per_entry (py : builtins) (data : json) :
  valid_feed py data = true ->
  exists records,
    neo_data py data = Ok records
    /\ List.length records = total_entries data
    /\ Forall2 same_bounds (all_entries data) records.
Proof.
  intro H. unfold valid_feed in H. unfold total_entries, all_entries.
  rewrite neo_data_collect.
  destruct (subscript_key data "near_earth_objects") as [m|]; [| discriminate].
  destruct m as [| | | | | |by_date]; try discriminate.
  cbn [bind method_items].
  destruct (valid_days_collect py by_date H) as [rs [Hrs HF]].
  exists rs. repeat split; [exact Hrs | | exact HF].
  symmetry. eapply Forall2_length. exact HF.
Qed.


Lemma neo_info_empty_approaches (py : builtins) (date : string) (kvs : dict) :
  dict_get "close_approach_data" kvs = Some (JArr []) ->
  is_ok (neo_info py date (JObj kvs)) = false.
Proof.
  intro Hcad. unfold neo_info.
  cbn [subscript_path subscript subscript_key].
  rewrite Hcad. cbn [bind subscript_idx nth_error].
  repeat match goal with
         | |- is_ok (bind ?m _) = false =>
             destruct m; cbn [bind is_ok]; [| reflexivity]
         end.
  reflexivity.
Qed.

(** C10: a source object whose close-approach array is empty makes the
    normalizer raise (the subscript [0] has no value), for the object and
    for every feed that holds the object; with all earlier fields in place
    the exception is IndexError. *)
Theorem neo_data_needs_close_approach (py : builtins) (date : string)
  (kvs : dict) :
  dict_get "close_approach_data" kvs = Some (JArr []) ->
  is_ok (neo_info py date (JObj kvs)) = false
  /\ (has_path (JObj kvs) [Key "id"]
      && has_path (JObj kvs) [Key "name"]
      && has_path (JObj kvs) km_min_path
      && has_path (JObj kvs) km_max_path
      && has_path (JObj kvs) [Key "is_potentially_hazardous_asteroid"] = true ->
      neo_info py date (JObj kvs) = Raise IndexError)
  /\ (forall data by_date neos,
        subscript_key data "near_earth_objects" = Ok (JObj by_date) ->
        In (date, JArr neos) by_date ->
        In (JObj kvs) neos ->
        is_ok (neo_data py data) = false).
Proof.
  intro Hcad. split; [| split].
  - apply neo_info_empty_approaches. exact Hcad.
  - unfold has_path, km_min_path, km_max_path, neo_info. intro H.
    split_andb H. revert H V V0 V1 V2.
    cbn [subscript_path subscript subscript_key].
    rewrite Hcad.
    destruct (dict_get "id" kvs); [| discriminate].
    destruct (dict_get "name" kvs); [| discriminate].
    cbn [bind].
    destruct (dict_get "estimated_diameter" kvs) as [ed|]; [| discriminate].
    cbn [bind].
    destruct ed as [| | | | | |ed]; try discriminate.
    cbn [subscript_key].
    destruct (dict_get "kilometers" ed) as [km|]; [| discriminate].
    cbn [bind].
    destruct km as [| | | | | |km]; try discriminate.
    cbn [subscript_key].
    destruct (dict_get "estimated_diameter_min" km); [| discriminate].
    destruct (dict_get "estimated_diameter_max" km); [| discriminate].
    destruct (dict_get "is_potentially_hazardous_asteroid" kvs);
      [| discriminate].
    reflexivity.
  - intros data by_date neos Hd Hday Hneo.
    rewrite neo_data_collect, Hd. cbn [bind method_items].
    apply (collect_raises _ _ (date, JArr neos) Hday).
    unfold day_batch. cbn [fst snd iterate bind].
    apply (collect_raises _ _ (JObj kvs) Hneo).
    unfold neo_batch.
    pose proof (neo_info_empty_approaches py date kvs Hcad) as E.
    destruct (neo_info py date (JObj kvs)); [discriminate | reflexivity].
Qed.

(** ** Mars weather *)

Lemma subscript_key_dict (v : json) (k : string) (x : json) :
  subscript_key v k = Ok x ->
  exists kvs, v = JObj kvs /\ dict_get k kvs = Some x.
Proof.
  destruct v; try discriminate. cbn [subscript_key].
  destruct (dict_get k kvs) eqn:E; [| discriminate].
  intro H. injection H as <-. eauto.
Qed.

(** The test of line 304 passes for a str only. *)
Lemma key_in_str (item : json) (kvs : dict) :
  key_in item (JObj kvs) = Ok true ->
  exists k, item = JStr k /\ dict_mem k kvs = true.
Proof.
  destruct item; cbn [key_in]; try discriminate.
  intro H. injection H as H. eauto.
Qed.

Lemma weather_loop_rows (py : builtins) (kvs : dict) (sols : list json) :
  forall acc rows,
    for_each (weather_step py (JObj kvs)) sols acc = Ok rows ->
    exists added,
      rows = acc ++ added
      /\ Forall2 (fun sol r => exists k, sol = JStr k
                                      /\ row py (JObj kvs) k = Ok r)
           (filter (sol_present kvs) sols) added.
Proof.
  induction sols as [|sol sols IH]; intros acc rows H.
  - cbn [for_each] in H. injection H as <-.
    exists []. rewrite app_nil_r. split; [reflexivity | constructor].
  - cbn [for_each] in H. bind_ok H.
    unfold weather_step in E. bind_ok E.
    destruct (IH _ _ H) as [added [-> HF]].
    destruct a0.
    + destruct (key_in_str _ _ E0) as [k [-> Hk]].
      bind_ok E. injection E as <-.
      exists (a0 :: added). rewrite <- app_assoc. split; [reflexivity |].
      cbn [filter sol_present]. rewrite Hk. constructor; [eauto | exact HF].
    + injection E as <-.
      exists added. split; [reflexivity |].
      cbn [filter].
      assert (Hp : sol_present kvs sol = false).
      { destruct sol; cbn [sol_present key_in] in *; try reflexivity.
        injection E0 as ->. reflexivity. }
      rewrite Hp. exact HF.
Qed.

Lemma weather_df_rows_of_present (py : builtins) (weather_data : json)
  (rows : list weather_row) :
  weather_df py weather_data = Ok rows ->
  exists kvs sol_keys sols,
    weather_data = JObj kvs
    /\ dict_get "sol_keys" kvs = Some sol_keys
    /\ iterate sol_keys = Ok sols
    /\ Forall2 (fun sol r => exists k, sol = JStr k
                                    /\ row py weather_data k = Ok r)
         (filter (sol_present kvs) sols) rows.
Proof.
  intro H. unfold weather_df in H. bind_ok H. bind_ok H.
  destruct (subscript_key_dict _ _ _ E) as [kvs [-> Hk]].
  destruct (weather_loop_rows py kvs _ _ _ H) as [added [-> HF]].
  cbn [app] in *.
  exists kvs, a, a0. repeat split; assumption.
Qed.

(** C4: whenever the weather loop completes, the rows it produced are, in
    order, those of the listed sols that name a data block of the payload,
    one row each; a listed sol without a data block adds no row, and there
    are at most as many rows as listed sols. *)
Theorem weather_df_skips_absent (py : builtins) (weather_data : json)
  (rows : list weather_row) :
  weather_df py weather_data = Ok rows ->
  exists kvs sol_keys sols,
    weather_data = JObj kvs
    /\ dict_get "sol_keys" kvs = Some sol_keys
    /\ iterate sol_keys = Ok sols
    /\ Forall2 (fun sol r => exists k, sol = JStr k
                                    /\ row py weather_data k = Ok r)
         (filter (sol_present kvs) sols) rows
    /\ List.length rows = List.length (filter (sol_present kvs) sols)
    /\ List.length rows <= List.length sols.
Proof.
  intro H.
  destruct (weather_df_rows_of_present py weather_data rows H)
    as [kvs [sol_keys [sols [Eq [Hk [Hit HF]]]]]].
  exists kvs, sol_keys, sols. repeat split; try assumption.
  - symmetry. eapply Forall2_length. exact HF.
  - rewrite <- (Forall2_length HF). apply filter_length_le.
Qed.

Lemma Forall2_In_l {A B : Type} (P : A -> B -> Prop) (l : list A)
  (l' : list B) (x : A) :
  Forall2 P l l' -> In x l -> exists y, In y l' /\ P x y.
Proof.
  induction 1 as [|a b l l' Hab HF IH]; intro Hin; [contradiction |].
  destruct Hin as [-> | Hin].
  - exists b. split; [left; reflexivity | exact Hab].
  - destruct (IH Hin) as [y [Hy HP]]. exists y. split; [right |]; assumption.
Qed.

Lemma method_get_missing (sol_data : dict) (code agg : string) :
  sensor_ok sol_data code = true ->
  exists block,
    method_get (JObj sol_data) code (JObj []) = Ok (JObj block)
    /\ (aggregate_missing sol_data code agg = true ->
        method_get (JObj block) agg JNull = Ok JNull)
    /\ forall a, is_ok (method_get (JObj block) a JNull) = true.
Proof.
  unfold sensor_ok, aggregate_missing, dict_mem. cbn [method_get].
  destruct (dict_get code sol_data) as [v|].
  - destruct v as [| | | | | |block]; try discriminate. intros _.
    exists block. split; [reflexivity |]. split.
    + cbn [method_get]. destruct (dict_get agg block); [discriminate |].
      reflexivity.
    + intro a. cbn [method_get]. destruct (dict_get a block); reflexivity.
  - intros _. exists []. repeat split.
Qed.

Lemma row_built_with_none (py : builtins) (kvs sol_data : dict)
  (sol : string) (n : Z) :
  dict_get sol kvs = Some (JObj sol_data) ->
  int_of_str py sol = Some n ->
  sensor_ok sol_data "AT" = true ->
  sensor_ok sol_data "PRE" = true ->
  sensor_ok sol_data "HWS" = true ->
  exists r,
    row py (JObj kvs) sol = Ok r
    /\ Sol r = n
    /\ (aggregate_missing sol_data "AT" "av" = true -> Avg_Temp r = JNull)
    /\ (aggregate_missing sol_data "AT" "mn" = true -> Min_Temp r = JNull)
    /\ (aggregate_missing sol_data "AT" "mx" = true -> Max_Temp r = JNull)
    /\ (aggregate_missing sol_data "PRE" "av" = true -> Avg_Pressure r = JNull)
    /\ (aggregate_missing sol_data "HWS" "av" = true
        -> Avg_Wind_Speed r = JNull)
    /\ (aggregate_missing sol_data "HWS" "mx" = true
        -> Max_Wind_Speed r = JNull).
Proof.
  intros Hsol Hint HAT HPRE HHWS.
  unfold row, py_int. cbn [subscript_key]. rewrite Hsol, Hint. cbn [bind].
  destruct (method_get_missing sol_data "AT" "av" HAT)
    as [temp [Et [Tav Tok]]].
  destruct (method_get_missing sol_data "AT" "mn" HAT)
    as [temp' [Et' [Tmn _]]].
  rewrite Et in Et'. injection Et' as <-.
  destruct (method_get_missing sol_data "AT" "mx" HAT)
    as [temp' [Et' [Tmx _]]].
  rewrite Et in Et'. injection Et' as <-.
  destruct (method_get_missing sol_data "PRE" "av" HPRE)
    as [pre [Ep [Pav Pok]]].
  destruct (method_get_missing sol_data "HWS" "av" HHWS)
    as [wind [Ew [Wav Wok]]].
  destruct (method_get_missing sol_data "HWS" "mx" HHWS)
    as [wind' [Ew' [Wmx _]]].
  rewrite Ew in Ew'. injection Ew' as <-.
  rewrite Et, Ep, Ew. cbn [bind].
  assert (Hd : forall k d, exists v,
                 method_get (JObj sol_data) k d = Ok v).
  { intros k d. cbn [method_get]. destruct (dict_get k sol_data); eauto. }
  destruct (Hd "First_UTC" (JStr "Unknown")) as [v_date ->].
  destruct (Hd "Season" (JStr "Unknown")) as [v_season ->].
  cbn [bind].
  pose proof (Tok "av") as T1. pose proof (Tok "mn") as T2.
  pose proof (Tok "mx") as T3. pose proof (Pok "av") as P1.
  pose proof (Wok "av") as W1. pose proof (Wok "mx") as W2.
  destruct (method_get (JObj temp) "av" JNull) as [t_av|]; [| discriminate].
  destruct (method_get (JObj temp) "mn" JNull) as [t_mn|]; [| discriminate].
  destruct (method_get (JObj temp) "mx" JNull) as [t_mx|]; [| discriminate].
  destruct (method_get (JObj pre) "av" JNull) as [p_av|]; [| discriminate].
  destruct (method_get (JObj wind) "av" JNull) as [w_av|]; [| discriminate].
  destruct (method_get (JObj wind) "mx" JNull) as [w_mx|]; [| discriminate].
  cbn [bind]. eexists. split; [reflexivity |]. cbn.
  repeat split; intro M;
    match goal with
    | H : _ -> Ok _ = Ok JNull |- _ = JNull =>
        let E := fresh in
        pose proof (H M) as E; injection E as E; exact E
    end.
Qed.

Lemma weather_loop_completes (py : builtins) (kvs : dict)
  (sols : list json) :
  forallb (sol_data_ok py kvs) sols = true ->
  forall acc, exists rows,
    for_each (weather_step py (JObj kvs)) sols acc = Ok rows.
Proof.
  induction sols as [|sol sols IH]; intros H acc; [cbn; eauto |].
  cbn [forallb] in H. apply andb_true_iff in H. destruct H as [Hs Hl].
  cbn [for_each]. unfold weather_step at 1.
  destruct sol as [| | | |k| |]; cbn [key_in bind]; try discriminate Hs;
    try (apply IH; exact Hl).
  unfold dict_mem. cbn [sol_data_ok] in Hs.
  destruct (dict_get k kvs) as [v|] eqn:Ek; [| apply IH; exact Hl].
  destruct v as [| | | | | |sol_data]; try discriminate Hs.
  split_andb Hs.
  destruct (int_of_str py k) as [n|] eqn:En; [| discriminate Hs].
  destruct (row_built_with_none py kvs sol_data k n Ek En V1 V0 V)
    as [r [Hr _]].
  rewrite Hr. cbn [bind]. apply IH. exact Hl.
Qed.

(** The loop of lines 299-326 completes on every payload whose listed sols
    are well formed. *)
Lemma weather_df_completes (py : builtins) (kvs : dict)
  (sol_keys : json) (sols : list json) :
  dict_get "sol_keys" kvs = Some sol_keys ->
  iterate sol_keys = Ok sols ->
  forallb (sol_data_ok py kvs) sols = true ->
  exists rows, weather_df py (JObj kvs) = Ok rows.
Proof.
  intros Hk Hit Hok. unfold weather_df. cbn [subscript_key].
  rewrite Hk. cbn [bind]. rewrite Hit. cbn [bind].
  apply weather_loop_completes. exact Hok.
Qed.

(** C9: for a sol that is a data block of the payload, with an identifier
    that reads as an integer and sensor blocks that are objects where they
    exist, the row is built, and each of its six measurements whose sensor
    block or aggregate field is missing is None (never a number); the row is
    among the rows of every completed run of the loop that lists the sol. *)
Theorem row_missing_measurement_is_none (py : builtins) (kvs sol_data : dict)
  (sol : string) (n : Z) :
  dict_get sol kvs = Some (JObj sol_data) ->
  int_of_str py sol = Some n ->
  sensor_ok sol_data "AT" = true ->
  sensor_ok sol_data "PRE" = true ->
  sensor_ok sol_data "HWS" = true ->
  exists r,
    row py (JObj kvs) sol = Ok r
    /\ Sol r = n
    /\ (aggregate_missing sol_data "AT" "av" = true -> Avg_Temp r = JNull)
    /\ (aggregate_missing sol_data "AT" "mn" = true -> Min_Temp r = JNull)
    /\ (aggregate_missing sol_data "AT" "mx" = true -> Max_Temp r = JNull)
    /\ (aggregate_missing sol_data "PRE" "av" = true -> Avg_Pressure r = JNull)
    /\ (aggregate_missing sol_data "HWS" "av" = true
        -> Avg_Wind_Speed r = JNull)
    /\ (aggregate_missing sol_data "HWS" "mx" = true
        -> Max_Wind_Speed r = JNull)
    /\ (forall sol_keys sols rows,
          dict_get "sol_keys" kvs = Some sol_keys ->
          iterate sol_keys = Ok sols ->
          In (JStr sol) sols ->
          weather_df py (JObj kvs) = Ok rows ->
          In r rows).
Proof.
  intros Hsol Hint HAT HPRE HHWS.
  destruct (row_built_with_none py kvs sol_data sol n
              Hsol Hint HAT HPRE HHWS) as [r [Hr Hfields]].
  exists r. split; [exact Hr |].
  repeat (split; [apply Hfields |]).
  intros sol_keys sols rows Hk Hit Hin Hdf.
  destruct (weather_df_rows_of_present py (JObj kvs) rows Hdf)
    as [kvs' [sk [ss [Eq [Hk' [Hit' HF]]]]]].
  injection Eq as <-. rewrite Hk in Hk'. injection Hk' as <-.
  rewrite Hit in Hit'. injection Hit' as <-.
  assert (Hf : In (JStr sol) (filter (sol_present kvs) sols)).
  { apply filter_In. split; [exact Hin |].
    cbn [sol_present]. unfold dict_mem. rewrite Hsol. reflexivity. }
  destruct (Forall2_In_l _ _ _ _ HF Hf) as [r' [Hr' [k [Ek Hrow']]]].
  injection Ek as <-. rewrite Hr in Hrow'. injection Hrow' as <-.
  exact Hr'.
Qed.

(** The sample data, once it is the input, gives the one row of sol 259. *)
Lemma sample_weather_rows (py : builtins) :
  int_of_str py "259" = Some 259%Z ->
  weather_df py sample_weather_data
  = Ok [ {| Sol := 259;
            Earth_Date := JStr "2019-08-19T08:03:59Z";
            Season := JStr "winter";
            Avg_Temp := JFloat (-77.064)%float;
            Min_Temp := JFloat (-99.429)%float;
            Max_Temp := JFloat (-13.668)%float;
            Avg_Pressure := JFloat 761.006%float;
            Avg_Wind_Speed := JFloat 4.563%float;
            Max_Wind_Speed := JFloat 17.617%float |} ].
Proof.
  intro H. unfold weather_df, sample_weather_data.
  cbn [subscript_key dict_get String.eqb Ascii.eqb Bool.eqb bind iterate
       for_each].
  unfold weather_step, row, py_int.
  cbn [key_in dict_mem dict_get String.eqb Ascii.eqb Bool.eqb bind
       subscript_key method_get].
  rewrite H. reflexivity.
Qed.

(** The sample data is reached only when the fetch helper itself raises. *)
Lemma get_mars_weather_sample_only_on_raise (o : http_outcome) :
  is_ok (fetch_nasa_data o) = true ->
  get_mars_weather o = match o with
                       | JsonBody body => body
                       | _ => JNull
                       end.
Proof.
  unfold get_mars_weather.
  destruct o as [| |[|]|body]; cbn; intro H; try reflexivity; discriminate.
Qed.

Lemma mars_weather_page_old_requests (py : builtins) :
  int_of_str py "259" = Some 259%Z ->
  exists r, mars_weather_page py (MalformedBody false) = Ok (WeatherTable [r])
            /\ Sol r = 259%Z.
Proof.
  intro H. unfold mars_weather_page.
  change (get_mars_weather (MalformedBody false)) with sample_weather_data.
  rewrite (sample_weather_rows py H).
  eexists. split; reflexivity.
Qed.

(** C1: when the upstream is unreachable, answers with an error status, or
    sends a body that [requests] reports as a RequestException, the fetch
    helper returns None, [get_mars_weather] hands that None on instead of the
    sample data, and the page shows its "unable to retrieve" message with no
    weather row. *)
Theorem mars_weather_fetch_failure_gives_no_rows (py : builtins) :
  (fetch_nasa_data Unreachable = Ok JNull
   /\ get_mars_weather Unreachable = JNull
   /\ get_mars_weather Unreachable <> sample_weather_data
   /\ mars_weather_page py Unreachable = Ok WeatherUnavailable)
  /\ mars_weather_page py ErrorStatus = Ok WeatherUnavailable
  /\ mars_weather_page py (MalformedBody true) = Ok WeatherUnavailable.
Proof.
  repeat split; try reflexivity.
  cbn. unfold sample_weather_data. discriminate.
Qed.

(** ** EPIC *)

Lemma string_app_nil_r (s : string) : (s ++ "")%string = s.
Proof. induction s as [|c s IH]; cbn; [| rewrite IH]; reflexivity. Qed.

Lemma string_app_assoc (a b c : string) :
  ((a ++ b) ++ c)%string = (a ++ (b ++ c))%string.
Proof. induction a as [|x a IH]; cbn; [| rewrite IH]; reflexivity. Qed.

Lemma split_go_cons (sep s : string) :
  forall skip cur, exists h t, split_go sep s skip cur = h :: t.
Proof.
  induction s as [|c s IH]; intros skip cur; cbn [split_go]; [eauto |].
  destruct skip; [| apply IH].
  destruct (String.prefix sep (String c s)); [eauto | apply IH].
Qed.

Lemma split_go_until (c : ascii) (day rest : string) :
  no_char c day = true ->
  forall cur,
    split_go (String c "") (day ++ String c rest) 0 cur
    = (cur ++ day)%string :: split_go (String c "") rest 0 "".
Proof.
  induction day as [|d day IH]; intros Hno cur.
  - cbn [String.append split_go String.prefix].
    destruct (ascii_dec c c) as [_|N]; [| contradiction].
    assert (P : String.prefix "" rest = true) by (destruct rest; reflexivity).
    rewrite P. cbn [String.length Nat.sub].
    rewrite string_app_nil_r. reflexivity.
  - cbn [no_char] in Hno. apply andb_true_iff in Hno.
    destruct Hno as [Hd Hday].
    cbn [String.append split_go String.prefix].
    destruct (ascii_dec c d) as [->|N].
    + rewrite Ascii.eqb_refl in Hd. discriminate.
    + rewrite (IH Hday). rewrite string_app_assoc. reflexivity.
Qed.

Lemma image_date_of (kvs : dict) (day clock : string) :
  dict_get "date" kvs = Some (JStr (day ++ " " ++ clock)) ->
  no_char " " day = true ->
  image_date (JObj kvs) = Ok (str_replace day "-" "/").
Proof.
  intros Hdate Hday. unfold image_date.
  cbn [subscript_key]. rewrite Hdate. cbn [bind as_str].
  unfold str_split. cbn [String.eqb Ascii.eqb Bool.eqb bind].
  change (day ++ " " ++ clock)%string with (day ++ String " " clock)%string.
  rewrite (split_go_until " " day clock Hday "").
  reflexivity.
Qed.

Lemma image_time_ok (kvs : dict) (day clock : string) :
  dict_get "date" kvs = Some (JStr (day ++ " " ++ clock)) ->
  no_char " " day = true ->
  exists t, image_time (JObj kvs) = Ok t.
Proof.
  intros Hdate Hday. unfold image_time.
  cbn [subscript_key]. rewrite Hdate. cbn [bind as_str].
  unfold str_split. cbn [String.eqb Ascii.eqb Bool.eqb bind].
  change (day ++ " " ++ clock)%string with (day ++ String " " clock)%string.
  rewrite (split_go_until " " day clock Hday "").
  destruct (split_go_cons " " clock 0 "") as [h [t ->]].
  cbn [list_index nth_error bind].
  destruct (split_go_cons "." h 0 "") as [h' [t' ->]].
  exists h'. reflexivity.
Qed.

(** The template of line 440: the date part before the first space with
    its hyphens turned into slashes, between the type selector and the
    identifier. *)
Lemma image_url_template (py : builtins) (type_param api_key : string)
  (kvs : dict) (day clock ident : string) :
  dict_get "date" kvs = Some (JStr (day ++ " " ++ clock)) ->
  no_char " " day = true ->
  dict_get "identifier" kvs = Some (JStr ident) ->
  image_url py type_param api_key (JObj kvs)
  = Ok ("https://api.nasa.gov/EPIC/archive/" ++ type_param ++ "/"
        ++ str_replace day "-" "/" ++ "/png/" ++ ident
        ++ ".png?api_key=" ++ api_key)%string.
Proof.
  intros Hdate Hday Hid. unfold image_url.
  rewrite (image_date_of kvs day clock Hdate Hday).
  destruct (image_time_ok kvs day clock Hdate Hday) as [t ->].
  cbn [bind subscript_key]. rewrite Hid. reflexivity.
Qed.

Lemma no_char_app (c : ascii) (a b : string) :
  no_char c (a ++ b) = no_char c a && no_char c b.
Proof.
  induction a as [|x a IH]; [reflexivity |].
  cbn [String.append no_char]. rewrite IH, andb_assoc. reflexivity.
Qed.

Lemma prefix_empty (s : string) : String.prefix "" s = true.
Proof. destruct s; reflexivity. Qed.

Lemma replace_hyphen_app (a b : string) :
  replace_go "-" "/" (a ++ b) 0
  = (replace_go "-" "/" a 0 ++ replace_go "-" "/" b 0)%string.
Proof.
  induction a as [|c a IH]; [reflexivity |].
  cbn [String.append replace_go String.prefix].
  destruct (ascii_dec "-" c) as [_|_].
  - rewrite !prefix_empty. cbn [String.length Nat.sub String.append].
    rewrite IH. reflexivity.
  - cbn [String.append]. rewrite IH. reflexivity.
Qed.

Lemma replace_hyphen_none (s : string) :
  no_char "-" s = true -> replace_go "-" "/" s 0 = s.
Proof.
  induction s as [|c s IH]; intro H; [reflexivity |].
  cbn [no_char] in H. apply andb_true_iff in H. destruct H as [Hc Hs].
  cbn [replace_go String.prefix].
  destruct (ascii_dec "-" c) as [<-|_].
  - rewrite Ascii.eqb_refl in Hc. discriminate Hc.
  - rewrite (IH Hs). reflexivity.
Qed.

Lemma date_segments (yyyy mm dd : string) :
  date_part_ok yyyy = true ->
  date_part_ok mm = true ->
  date_part_ok dd = true ->
  no_char " " (yyyy ++ "-" ++ mm ++ "-" ++ dd) = true
  /\ str_replace (yyyy ++ "-" ++ mm ++ "-" ++ dd) "-" "/"
     = (yyyy ++ "/" ++ mm ++ "/" ++ dd)%string.
Proof.
  unfold date_part_ok. intros Hy Hm Hd.
  apply andb_true_iff in Hy, Hm, Hd.
  destruct Hy as [Hy Hy'], Hm as [Hm Hm'], Hd as [Hd Hd'].
  split.
  - rewrite no_char_app, Hy'. cbn [String.append no_char andb].
    cbn [Ascii.eqb Bool.eqb negb andb].
    rewrite no_char_app, Hm'. cbn [String.append no_char andb].
    cbn [Ascii.eqb Bool.eqb negb andb]. exact Hd'.
  - unfold str_replace. cbn [String.eqb Ascii.eqb Bool.eqb].
    rewrite replace_hyphen_app, (replace_hyphen_none yyyy Hy).
    change ("-" ++ mm ++ "-" ++ dd)%string
      with (String "-" (mm ++ "-" ++ dd))%string.
    cbn [replace_go String.prefix]. rewrite prefix_empty.
    cbn [String.length Nat.sub].
    rewrite replace_hyphen_app, (replace_hyphen_none mm Hm).
    change ("-" ++ dd)%string with (String "-" dd).
    cbn [replace_go String.prefix]. rewrite prefix_empty.
    cbn [String.length Nat.sub].
    rewrite (replace_hyphen_none dd Hd). reflexivity.
Qed.

(** C3: the EPIC image URL is a function of the descriptor's date string,
    its identifier and the image-type selector (and the key): for a date
    string "yyyy-mm-dd clock" it is
    https://api.nasa.gov/EPIC/archive/{type}/{yyyy}/{mm}/{dd}/png/{identifier}.png?api_key={key},
    the date parts kept as they are written (zero padding included) and in
    that order; no other field of the descriptor matters; and for the date
    component 2023-07-14, identifier 20230714001751_01 and type natural it
    is .../natural/2023/07/14/png/20230714001751_01.png followed by the
    api_key parameter. *)
Theorem image_url_follows_template (py : builtins)
  (type_param api_key : string) (kvs : dict)
  (yyyy mm dd clock ident : string) :
  dict_get "date" kvs
  = Some (JStr (yyyy ++ "-" ++ mm ++ "-" ++ dd ++ " " ++ clock)) ->
  date_part_ok yyyy && date_part_ok mm && date_part_ok dd = true ->
  dict_get "identifier" kvs = Some (JStr ident) ->
  image_url py type_param api_key (JObj kvs)
  = Ok ("https://api.nasa.gov/EPIC/archive/" ++ type_param ++ "/"
        ++ yyyy ++ "/" ++ mm ++ "/" ++ dd ++ "/png/" ++ ident
        ++ ".png?api_key=" ++ api_key)%string
  /\ (forall kvs',
        dict_get "date" kvs' = dict_get "date" kvs ->
        dict_get "identifier" kvs' = dict_get "identifier" kvs ->
        image_url py type_param api_key (JObj kvs')
        = image_url py type_param api_key (JObj kvs))
  /\ (yyyy = "2023" -> mm = "07" -> dd = "14" ->
      ident = "20230714001751_01" ->
      image_url py (image_type_param "Natural Color") api_key (JObj kvs)
      = Ok ("https://api.nasa.gov/EPIC/archive/natural/2023/07/14/png/20230714001751_01.png?api_key="
            ++ api_key)%string).
Proof.
  intros Hdate Hparts Hid.
  apply andb_true_iff in Hparts. destruct Hparts as [Hparts Hd].
  apply andb_true_iff in Hparts. destruct Hparts as [Hy Hm].
  destruct (date_segments yyyy mm dd Hy Hm Hd) as [Hspace Hslash].
  assert (Hdate' : dict_get "date" kvs
                   = Some (JStr ((yyyy ++ "-" ++ mm ++ "-" ++ dd)
                                 ++ " " ++ clock))).
  { rewrite Hdate. rewrite !string_app_assoc. reflexivity. }
  assert (Htemplate : forall t,
            image_url py t api_key (JObj kvs)
            = Ok ("https://api.nasa.gov/EPIC/archive/" ++ t ++ "/"
                  ++ yyyy ++ "/" ++ mm ++ "/" ++ dd ++ "/png/" ++ ident
                  ++ ".png?api_key=" ++ api_key)%string).
  { intro t.
    rewrite (image_url_template py t api_key kvs
               (yyyy ++ "-" ++ mm ++ "-" ++ dd) clock ident
               Hdate' Hspace Hid).
    rewrite Hslash. rewrite !string_app_assoc. reflexivity. }
  split; [apply Htemplate | split].
  - intros kvs' Hd' Hi'. unfold image_url, image_date, image_time.
    cbn [subscript_key]. rewrite Hd', Hi'. reflexivity.
  - intros -> -> -> ->. rewrite Htemplate. reflexivity.
Qed.

(** * The statements on the example inputs *)

Lemma clamp_date_range_witness :
  clamp_date_range 738886 738906 = Ok (738886, 738893)%Z
  /\ clamp_date_range 738886 738889 = Ok (738886, 738889)%Z.
Proof.
  assert (V1 : valid_date 738886) by (unfold valid_date, MAXORDINAL; lia).
  assert (V2 : valid_date 738906) by (unfold valid_date, MAXORDINAL; lia).
  assert (V3 : valid_date 738889) by (unfold valid_date, MAXORDINAL; lia).
  split.
  - apply (proj1 (clamp_date_range_spec 738886 738906 V1 V2)). lia.
  - apply (proj2 (clamp_date_range_spec 738886 738889 V1 V3)). lia.
Defined.

Lemma grid_rows_witness :
  grid_rows example_photos
  = [ [example_photo 1 "FHAZ"; example_photo 2 "MAST"; example_photo 3 "FHAZ"];
      [example_photo 4 "NAVCAM"] ]
  /\ List.concat (grid_rows example_photos) = example_photos.
Proof.
  split; [reflexivity |].
  apply (grid_rows_partition example_photos).
Defined.

Lemma filter_by_camera_witness :
  filter_by_camera "All" example_photos = Ok example_photos
  /\ filter_by_camera "FHAZ" example_photos
     = Ok [example_photo 1 "FHAZ"; example_photo 3 "FHAZ"].
Proof.
  destruct (filter_by_camera_spec example_photos) as [Hall Hsel].
  split; [exact Hall |].
  apply (Hsel "FHAZ"
           [JStr "FHAZ"; JStr "MAST"; JStr "FHAZ"; JStr "NAVCAM"]).
  - discriminate.
  - reflexivity.
Defined.

Lemma neo_data_one_record_per_entry_witness :
  exists records,
    neo_data example_builtins example_feed = Ok records
    /\ List.length records = 3
    /\ Forall2 same_bounds (all_entries example_feed) records.
Proof.
  apply (neo_data_one_record_per_entry example_builtins example_feed).
  vm_compute. reflexivity.
Defined.

(** C2 as stated fails: a well-formed feed yields a record with
    diameter_min_km = 2.0 and diameter_max_km = 1.0. *)
Lemma neo_diameter_order_counterexample :
  ~ (forall data,
       valid_feed example_builtins data = true ->
       exists records,
         neo_data example_builtins data = Ok records
         /\ List.length records = total_entries data
         /\ Forall (fun r => diameter_ordered r = true) records).
Proof.
  intro H.
  assert (V : valid_feed example_builtins inverted_feed = true)
    by (vm_compute; reflexivity).
  destruct (H inverted_feed V) as [records [E [_ F]]].
  vm_compute in E. injection E as <-.
  inversion F as [|r rs Hr _]; subst.
  vm_compute in Hr. discriminate Hr.
Qed.


Lemma neo_data_needs_close_approach_witness :
  is_ok (neo_info example_builtins "2024-01-01" (JObj no_approach_fields))
  = false.
Proof.
  apply (proj1 (neo_data_needs_close_approach example_builtins "2024-01-01"
                  no_approach_fields eq_refl)).
Defined.

Lemma weather_df_skips_absent_witness :
  exists kvs sol_keys sols,
    JObj example_payload_fields = JObj kvs
    /\ dict_get "sol_keys" kvs = Some sol_keys
    /\ iterate sol_keys = Ok sols
    /\ Forall2 (fun sol r =>
                  exists k, sol = JStr k
                            /\ row example_builtins
                                 (JObj example_payload_fields) k = Ok r)
         (filter (sol_present kvs) sols)
         [ {| Sol := 101;
              Earth_Date := JStr "2019-03-14T00:00:00Z";
              Season := JStr "spring";
              Avg_Temp := JFloat (-60.5)%float;
              Min_Temp := JNull;
              Max_Temp := JFloat (-10.25)%float;
              Avg_Pressure := JFloat 750.5%float;
              Avg_Wind_Speed := JNull;
              Max_Wind_Speed := JNull |} ]
    /\ 1 = List.length (filter (sol_present kvs) sols)
    /\ 1 <= List.length sols.
Proof.
  apply (weather_df_skips_absent example_builtins
           (JObj example_payload_fields)).
  reflexivity.
Defined.

Lemma row_missing_measurement_witness :
  exists r,
    row example_builtins (JObj example_payload_fields) "101" = Ok r
    /\ Sol r = 101%Z
    /\ Min_Temp r = JNull
    /\ Avg_Wind_Speed r = JNull
    /\ Max_Wind_Speed r = JNull.
Proof.
  destruct (row_missing_measurement_is_none example_builtins
              example_payload_fields example_sol_data "101" 101
              eq_refl eq_refl eq_refl eq_refl eq_refl)
    as [r [Hr [Hs [_ [Hmn [_ [_ [Hwa [Hwm _]]]]]]]]].
  exists r. repeat split; auto.
Defined.

Lemma image_url_follows_template_witness :
  image_url example_builtins "natural" "DEMO_KEY" (JObj example_epic_fields)
  = Ok "https://api.nasa.gov/EPIC/archive/natural/2023/07/14/png/20230714001751_01.png?api_key=DEMO_KEY".
Proof.
  apply (proj1 (image_url_follows_template example_builtins "natural"
                  "DEMO_KEY" example_epic_fields "2023" "07" "14" "00:13:03"
                  "20230714001751_01" eq_refl eq_refl eq_refl)).
Defined.

(** * Further properties *)

(** ** Grid cells *)

Lemma collect_map {A B : Type} (f : A -> res (list B)) (g : A -> B)
  (l : list A) :
  (forall x, In x l -> f x = Ok [g x]) -> collect f l = Ok (map g l).
Proof.
  induction l as [|x l IH]; intro H; [reflexivity |].
  cbn [collect map]. rewrite (H x (or_introl eq_refl)). cbn [bind].
  rewrite IH by (intros y Hy; apply H; right; exact Hy).
  reflexivity.
Qed.

Lemma combine_seq_nth {A : Type} (l : list A) :
  forall s j x,
    nth_error l j = Some x ->
    nth_error (combine (seq s (List.length l)) l) j = Some (s + j, x).
Proof.
  induction l as [|y l IH]; intros s j x H; [destruct j; discriminate |].
  destruct j as [|j]; cbn in H |- *.
  - injection H as <-. rewrite Nat.add_0_r. reflexivity.
  - rewrite (IH (S s) j x H). f_equal. f_equal. lia.
Qed.

Lemma combine_seq_snd {A : Type} (l : list A) :
  forall s, map snd (combine (seq s (List.length l)) l) = l.
Proof.
  induction l as [|y l IH]; intro s; [reflexivity |].
  cbn. rewrite IH. reflexivity.
Qed.

Lemma combine_seq_fst {A : Type} (l : list A) :
  forall s, map fst (combine (seq s (List.length l)) l) = seq s (List.length l).
Proof.
  induction l as [|y l IH]; intro s; [reflexivity |].
  cbn. rewrite IH. reflexivity.
Qed.

Lemma enumerate_index {A : Type} (l : list A) (c : nat * A) :
  In c (enumerate l) -> fst c < List.length l.
Proof.
  destruct c as [j x]. unfold enumerate. intro H.
  apply in_combine_l in H. apply in_seq in H. cbn [fst]. lia.
Qed.

Lemma st_columns_index (n j : nat) :
  j < n -> list_index (st_columns n) j = Ok j.
Proof.
  intro H. unfold list_index, st_columns. rewrite nth_error_seq.
  apply Nat.ltb_lt in H. rewrite H. reflexivity.
Qed.

Lemma slice_length_le {A : Type} (l : list A) (i : nat) :
  List.length (slice l i (i + cols)) <= cols.
Proof.
  unfold slice. rewrite length_firstn. lia.
Qed.

Lemma grid_rows_concat {A : Type} (l : list A) :
  List.concat (grid_rows l) = l.
Proof.
  rewrite grid_rows_eq. apply chunks_concat.
  apply rows_needed_bounds.
Qed.

Lemma grid_rows_nth {A : Type} (l : list A) (k : nat) (x : A) :
  nth_error l k = Some x ->
  exists row,
    nth_error (grid_rows l) (k / cols) = Some row
    /\ nth_error row (k mod cols) = Some x.
Proof.
  intro H.
  assert (Hk : k < List.length l)
    by (apply nth_error_Some; rewrite H; discriminate).
  pose proof (rows_needed_bounds (List.length l)) as [Hlo Hhi].
  pose proof (Nat.div_mod_eq k cols) as Hdm.
  pose proof (Nat.mod_upper_bound k cols) as Hm.
  unfold cols in Hlo, Hhi, Hdm, Hm.
  assert (Hq : k / cols < rows_needed (List.length l))
    by (unfold cols; lia).
  exists (firstn cols (skipn (k / cols * cols) l)). split.
  - rewrite grid_rows_eq, nth_error_map, nth_error_seq.
    apply Nat.ltb_lt in Hq. rewrite Hq. reflexivity.
  - rewrite nth_error_firstn.
    assert (Hlt : (k mod cols <? cols)%nat = true)
      by (apply Nat.ltb_lt; unfold cols; lia).
    rewrite Hlt, nth_error_skipn.
    replace (k / cols * cols + k mod cols) with k by (unfold cols; lia).
    exact H.
Qed.

Lemma for_each_raises {A S : Type} (body : S -> A -> res S) (l : list A)
  (x : A) :
  In x l ->
  (forall acc, is_ok (body acc x) = false) ->
  forall acc, is_ok (for_each body l acc) = false.
Proof.
  induction l as [|y l IH]; intros Hin Hx acc; [contradiction |].
  cbn [for_each]. destruct Hin as [-> | Hin].
  - specialize (Hx acc). destruct (body acc x); [discriminate | reflexivity].
  - destruct (body acc y); cbn [bind]; [| reflexivity].
    apply IH; assumption.
Qed.

Lemma grid_row_members {A : Type} (l row : list A) (x : A) :
  In row (grid_rows l) -> In x row -> In x l.
Proof.
  intros Hrow Hx. rewrite <- (grid_rows_concat l).
  apply in_concat. exists row. split; assumption.
Qed.

Lemma grid_row_short {A : Type} (l row : list A) :
  In row (grid_rows l) -> List.length row <= cols.
Proof.
  unfold grid_rows. intro H. apply in_map_iff in H.
  destruct H as [i [<- _]]. apply slice_length_le.
Qed.

Lemma photo_body_is_ok (st_image : json -> res unit) (col : nat)
  (photo : json) :
  is_ok (photo_cell_body st_image col photo) = photo_complete st_image photo.
Proof.
  unfold photo_cell_body, photo_complete, has_path.
  cbn [subscript_path subscript].
  destruct (subscript_key photo "img_src") as [img|]; cbn [bind is_ok andb];
    [| reflexivity].
  destruct (st_image img); cbn [bind is_ok andb]; [| reflexivity].
  destruct (subscript_key photo "id"); cbn [bind is_ok andb]; [| reflexivity].
  destruct (subscript_key photo "sol"); cbn [bind is_ok andb]; [| reflexivity].
  destruct (subscript_key photo "camera") as [cam|]; cbn [bind is_ok andb];
    [| reflexivity].
  destruct (subscript_key cam "full_name"); cbn [bind is_ok andb];
    [| reflexivity].
  destruct (subscript_key cam "name"); cbn [bind is_ok andb]; [| reflexivity].
  destruct (subscript_key photo "earth_date"); cbn [bind is_ok andb];
    [| reflexivity].
  destruct (subscript_key photo "rover") as [rov|]; cbn [bind is_ok andb];
    [| reflexivity].
  destruct (subscript_key rov "status"); reflexivity.
Qed.

Lemma photo_body_column (st_image : json -> res unit) (col : nat)
  (photo : json) (c : photo_cell) :
  photo_cell_body st_image col photo = Ok c -> cell_column c = col.
Proof.
  unfold photo_cell_body. intro H.
  bind_ok H. bind_ok H. bind_ok H. bind_ok H. bind_ok H. bind_ok H.
  bind_ok H. bind_ok H. injection H as <-. reflexivity.
Qed.

Lemma photo_body_view (st_image : json -> res unit) (col : nat)
  (photo : json) :
  photo_complete st_image photo = true ->
  photo_cell_body st_image col photo
  = Ok (photo_cell_view st_image (col, photo)).
Proof.
  intro H. rewrite <- (photo_body_is_ok st_image col photo) in H.
  unfold photo_cell_view. cbn [fst snd].
  destruct (photo_cell_body st_image col photo); [reflexivity | discriminate H].
Qed.

Lemma enumerate_member {A : Type} (l : list A) (x : A) :
  In x l -> exists j, In (j, x) (enumerate l).
Proof.
  intro H. apply In_nth_error in H. destruct H as [j Hj].
  exists j. unfold enumerate.
  apply (nth_error_In _ j). rewrite (combine_seq_nth l 0 j x Hj).
  reflexivity.
Qed.

Lemma row_cells_view (st_image : json -> res unit) (row_photos : list json) :
  forallb (photo_complete st_image) row_photos = true ->
  List.length row_photos <= cols ->
  row_cells st_image row_photos
  = Ok (map (photo_cell_view st_image) (enumerate row_photos)).
Proof.
  intros Hok Hlen. unfold row_cells.
  rewrite (for_each_collect _
             (fun cell =>
                if (fst cell <? List.length (st_columns cols))%nat
                then col <- list_index (st_columns cols) (fst cell) ;;
                     c <- photo_cell_body st_image col (snd cell) ;;
                     Ok [c]
                else Ok [])).
  - rewrite (collect_map _ (photo_cell_view st_image)); [reflexivity |].
    intros [j x] Hin.
    pose proof (enumerate_index row_photos (j, x) Hin) as Hj.
    cbn [fst snd] in *.
    assert (Hc : j < cols) by lia.
    unfold st_columns at 1. rewrite length_seq.
    apply Nat.ltb_lt in Hc. rewrite Hc. apply Nat.ltb_lt in Hc.
    rewrite (st_columns_index cols j Hc). cbn [bind].
    unfold enumerate in Hin. apply in_combine_r in Hin.
    rewrite forallb_forall in Hok.
    rewrite (photo_body_view st_image j x (Hok x Hin)). reflexivity.
  - intros acc cell.
    destruct (fst cell <? List.length (st_columns cols))%nat;
      [| cbn [bind]; rewrite app_nil_r; reflexivity].
    destruct (list_index (st_columns cols) (fst cell)) as [col|];
      cbn [bind]; [| reflexivity].
    destruct (photo_cell_body st_image col (snd cell)); reflexivity.
Qed.

Lemma row_cells_raises (st_image : json -> res unit) (row_photos : list json)
  (photo : json) :
  In photo row_photos ->
  List.length row_photos <= cols ->
  photo_complete st_image photo = false ->
  is_ok (row_cells st_image row_photos) = false.
Proof.
  intros Hin Hlen Hbad. unfold row_cells.
  destruct (enumerate_member row_photos photo Hin) as [j Hj].
  apply (for_each_raises _ _ (j, photo) Hj).
  intro acc. cbn [fst snd].
  pose proof (enumerate_index row_photos (j, photo) Hj) as Hlt.
  cbn [fst] in Hlt.
  assert (Hc : j < cols) by lia.
  unfold st_columns at 1. rewrite length_seq.
  apply Nat.ltb_lt in Hc. rewrite Hc. apply Nat.ltb_lt in Hc.
  rewrite (st_columns_index cols j Hc). cbn [bind].
  rewrite <- (photo_body_is_ok st_image j photo) in Hbad.
  destruct (photo_cell_body st_image j photo); [discriminate Hbad | reflexivity].
Qed.

Lemma photo_grid_view (st_image : json -> res unit) (photos : list json) :
  forallb (photo_complete st_image) photos = true ->
  photo_grid st_image photos
  = Ok (map (fun row => map (photo_cell_view st_image) (enumerate row))
          (grid_rows photos)).
Proof.
  intro Hok. unfold photo_grid.
  rewrite (for_each_collect _
             (fun i =>
                cells <- row_cells st_image (slice photos i (i + cols)) ;;
                Ok [cells])).
  - rewrite (collect_map _
               (fun i => map (photo_cell_view st_image)
                           (enumerate (slice photos i (i + cols))))).
    + unfold grid_rows. rewrite map_map. reflexivity.
    + intros i Hi.
      assert (Hrow : In (slice photos i (i + cols)) (grid_rows photos)).
      { unfold grid_rows. apply in_map_iff. exists i. split; [reflexivity |].
        exact Hi. }
      rewrite row_cells_view; [reflexivity | | apply slice_length_le].
      apply forallb_forall. intros x Hx.
      rewrite forallb_forall in Hok. apply Hok.
      eapply grid_row_members; eassumption.
  - intros acc i.
    destruct (row_cells st_image (slice photos i (i + cols))); reflexivity.
Qed.

Lemma photo_grid_raises (st_image : json -> res unit) (photos : list json)
  (photo : json) :
  In photo photos ->
  photo_complete st_image photo = false ->
  is_ok (photo_grid st_image photos) = false.
Proof.
  intros Hin Hbad. unfold photo_grid.
  rewrite <- (grid_rows_concat photos) in Hin.
  apply in_concat in Hin. destruct Hin as [row [Hrow Hp]].
  unfold grid_rows in Hrow. apply in_map_iff in Hrow.
  destruct Hrow as [i [<- Hi]].
  apply (for_each_raises _ _ i Hi). intro acc.
  pose proof (row_cells_raises st_image _ photo Hp
                (slice_length_le photos i) Hbad) as Hr.
  destruct (row_cells st_image (slice photos i (i + cols)));
    [discriminate Hr | reflexivity].
Qed.

Lemma list_sum_lengths {A B : Type} (f : list A -> list B)
  (rows : list (list A)) :
  (forall row, List.length (f row) = List.length row) ->
  List.length (List.concat (map f rows)) = List.length (List.concat rows).
Proof.
  intro H. induction rows as [|row rows IH]; [reflexivity |].
  cbn [map List.concat]. rewrite !length_app, H, IH. reflexivity.
Qed.

Lemma photo_grid_complete (st_image : json -> res unit) (photos : list json) :
  forallb (photo_complete st_image) photos = true ->
  exists cells,
    photo_grid st_image photos = Ok cells
    /\ List.length cells = rows_needed (List.length photos)
    /\ List.length (List.concat cells) = List.length photos
    /\ forall k p,
         nth_error photos k = Some p ->
         exists row c,
           nth_error cells (k / 3) = Some row
           /\ nth_error row (k mod 3) = Some c
           /\ cell_column c = k mod 3
           /\ photo_cell_body st_image (k mod 3) p = Ok c.
Proof.
  intro Hok. eexists. split; [apply (photo_grid_view st_image photos Hok) |].
  split; [| split].
  - rewrite length_map, grid_rows_eq, length_map, length_seq. reflexivity.
  - rewrite (list_sum_lengths
               (fun row => map (photo_cell_view st_image) (enumerate row))).
    + rewrite grid_rows_concat. reflexivity.
    + intro row. rewrite length_map. unfold enumerate.
      rewrite length_combine, length_seq. apply Nat.min_id.
  - intros k p H.
    destruct (grid_rows_nth photos k p H) as [row [Hrow Hp]].
    change cols with 3 in Hrow, Hp.
    assert (Hc : photo_complete st_image p = true).
    { rewrite forallb_forall in Hok. apply Hok.
      eapply nth_error_In. exact H. }
    exists (map (photo_cell_view st_image) (enumerate row)),
           (photo_cell_view st_image (k mod 3, p)).
    split; [| split; [| split]].
    + rewrite nth_error_map, Hrow. reflexivity.
    + rewrite nth_error_map. unfold enumerate.
      rewrite (combine_seq_nth row 0 (k mod 3) p Hp). reflexivity.
    + apply (photo_body_column st_image (k mod 3) p).
      apply photo_body_view. exact Hc.
    + apply photo_body_view. exact Hc.
Qed.

(** X1: when every photo has the fields the cell body reads (img_src, id,
    sol, camera full_name and name, earth_date, rover status) and an image
    that [st.image] accepts, the photo grid shows every photo exactly once,
    in order: the guard of line 102 drops none, and the photo at position k
    of the list is in row k // 3 under column k % 3 with its own values;
    one photo that lacks a field makes the whole grid raise. *)
Theorem photo_grid_places_every_photo (st_image : json -> res unit)
  (photos : list json) :
  (forallb (photo_complete st_image) photos = true ->
   exists cells,
     photo_grid st_image photos = Ok cells
     /\ List.length cells = rows_needed (List.length photos)
     /\ List.length (List.concat cells) = List.length photos
     /\ forall k p,
          nth_error photos k = Some p ->
          exists row c,
            nth_error cells (k / 3) = Some row
            /\ nth_error row (k mod 3) = Some c
            /\ cell_column c = k mod 3
            /\ photo_cell_body st_image (k mod 3) p = Ok c)
  /\ (forall photo,
        In photo photos ->
        photo_complete st_image photo = false ->
        is_ok (photo_grid st_image photos) = false).
Proof.
  split.
  - apply photo_grid_complete.
  - apply photo_grid_raises.
Qed.

Lemma photo_grid_witness :
  (exists cells,
     photo_grid example_st_image example_full_photos = Ok cells
     /\ List.length cells = 2
     /\ List.length (List.concat cells) = 4
     /\ forall k p,
          nth_error example_full_photos k = Some p ->
          exists row c,
            nth_error cells (k / 3) = Some row
            /\ nth_error row (k mod 3) = Some c
            /\ cell_column c = k mod 3
            /\ photo_cell_body example_st_image (k mod 3) p = Ok c)
  /\ is_ok (photo_grid example_st_image example_photos) = false.
Proof.
  split.
  - apply (proj1 (photo_grid_places_every_photo example_st_image
                    example_full_photos)).
    reflexivity.
  - apply (proj2 (photo_grid_places_every_photo example_st_image
                    example_photos) (example_photo 1 "FHAZ")).
    + left. reflexivity.
    + reflexivity.
Defined.

(** ** Rover photo page *)

Lemma collect_in {A B : Type} (f : A -> res (list B)) (l : list A) :
  forall zs z,
    collect f l = Ok zs ->
    In z zs ->
    exists x ys, In x l /\ f x = Ok ys /\ In z ys.
Proof.
  induction l as [|x l IH]; intros zs z H Hz.
  - cbn in H. injection H as <-. contradiction.
  - cbn [collect] in H. bind_ok H. bind_ok H. injection H as <-.
    apply in_app_or in Hz. destruct Hz as [Hz | Hz].
    + exists x, a. split; [left; reflexivity | split; assumption].
    + destruct (IH _ _ eq_refl Hz) as [x' [ys [Hx [Hf Hy]]]].
      exists x', ys. split; [right; exact Hx | split; assumption].
Qed.

Lemma filter_by_camera_filter (c : string) (photos : list json) :
  c <> "All" ->
  Forall (fun p => is_ok (camera_name p) = true) photos ->
  filter_by_camera c photos = Ok (filter (has_camera c) photos).
Proof.
  intros Hc Hok. unfold filter_by_camera.
  apply String.eqb_neq in Hc. rewrite Hc. cbn [negb].
  rewrite (for_each_collect _ (filter_batch c)).
  - rewrite (filter_collect c photos Hok). reflexivity.
  - intros acc x. unfold filter_batch.
    destruct (camera_name x) as [n|e]; cbn [bind]; [| reflexivity].
    destruct (json_eq_str n c); [reflexivity | rewrite app_nil_r; reflexivity].
Qed.

Lemma listed_camera_has_photo (photos names : list json) (c : string) :
  cameras photos = Ok names ->
  In (JStr c) names ->
  exists p, In p photos /\ has_camera c p = true.
Proof.
  rewrite cameras_collect. intros H Hin.
  destruct (collect_in _ _ _ _ H Hin) as [p [ys [Hp [Hf Hy]]]].
  exists p. split; [exact Hp |].
  unfold camera_batch in Hf. unfold has_camera.
  destruct (camera_name p) as [n|]; [| discriminate]. cbn [bind] in Hf.
  destruct (hashable n); [| discriminate].
  injection Hf as <-. destruct Hy as [-> | []].
  cbn [json_eq_str]. apply String.eqb_refl.
Qed.

(** X2: choosing a camera that line 89 listed never empties the page: the
    filter keeps at least one photo, and its first photo has that camera. *)
Theorem listed_camera_keeps_a_photo (photos names : list json) (c : string) :
  cameras photos = Ok names ->
  In (JStr c) names ->
  c <> "All" ->
  exists p rest,
    filter_by_camera c photos = Ok (p :: rest) /\ has_camera c p = true.
Proof.
  intros Hnames Hin Hc.
  rewrite (filter_by_camera_filter c photos Hc
             (cameras_ok_names photos names Hnames)).
  destruct (listed_camera_has_photo photos names c Hnames Hin) as [p [Hp Hcam]].
  assert (Hf : In p (filter (has_camera c) photos))
    by (apply filter_In; split; assumption).
  destruct (filter (has_camera c) photos) as [|q rest] eqn:E; [contradiction |].
  exists q, rest. split; [reflexivity |].
  assert (Hq : In q (filter (has_camera c) photos))
    by (rewrite E; left; reflexivity).
  apply filter_In in Hq. apply Hq.
Qed.

Lemma listed_camera_witness :
  exists p rest,
    filter_by_camera "MAST" example_photos = Ok (p :: rest)
    /\ has_camera "MAST" p = true.
Proof.
  apply (listed_camera_keeps_a_photo example_photos
           [JStr "FHAZ"; JStr "MAST"; JStr "FHAZ"; JStr "NAVCAM"] "MAST").
  - reflexivity.
  - right; left; reflexivity.
  - discriminate.
Defined.

Lemma filter_keeps_names_ok (c : string) (photos : list json) :
  Forall (fun p => is_ok (camera_name p) = true) photos ->
  Forall (fun p => is_ok (camera_name p) = true) (filter (has_camera c) photos).
Proof.
  intro H. apply Forall_forall. intros p Hp. apply filter_In in Hp.
  rewrite Forall_forall in H. apply H. apply Hp.
Qed.

Lemma filter_twice {A : Type} (f : A -> bool) (l : list A) :
  filter f (filter f l) = filter f l.
Proof.
  induction l as [|x l IH]; [reflexivity |].
  cbn [filter]. destruct (f x) eqn:E; [| exact IH].
  cbn [filter]. rewrite E, IH. reflexivity.
Qed.

(** X3: the camera filter is idempotent: once the photos were filtered by a
    camera c, filtering the result by c again returns it unchanged; every
    photo kept has camera c and no more photos are kept than there were. *)
Theorem filter_by_camera_idempotent (photos names shown : list json)
  (c : string) :
  cameras photos = Ok names ->
  c <> "All" ->
  filter_by_camera c photos = Ok shown ->
  filter_by_camera c shown = Ok shown
  /\ Forall (fun p => has_camera c p = true) shown
  /\ List.length shown <= List.length photos.
Proof.
  intros Hnames Hc H.
  pose proof (cameras_ok_names photos names Hnames) as Hok.
  rewrite (filter_by_camera_filter c photos Hc Hok) in H.
  injection H as <-. split; [| split].
  - rewrite (filter_by_camera_filter c _ Hc (filter_keeps_names_ok c _ Hok)).
    rewrite filter_twice. reflexivity.
  - apply Forall_forall. intros p Hp. apply filter_In in Hp. apply Hp.
  - apply filter_length_le.
Qed.

Lemma filter_by_camera_idempotent_witness :
  filter_by_camera "FHAZ" [example_photo 1 "FHAZ"; example_photo 3 "FHAZ"]
  = Ok [example_photo 1 "FHAZ"; example_photo 3 "FHAZ"].
Proof.
  apply (proj1 (filter_by_camera_idempotent example_photos
                  [JStr "FHAZ"; JStr "MAST"; JStr "FHAZ"; JStr "NAVCAM"]
                  [example_photo 1 "FHAZ"; example_photo 3 "FHAZ"] "FHAZ"
                  eq_refl ltac:(discriminate) eq_refl)).
Defined.

(** X4: the rover page takes its "no photos" branch, without raising, when
    the fetch failed, when the body is an object without a [photos] entry
    and when the entry is empty; a body that is truthy but no object raises
    AttributeError. *)
Theorem rover_page_without_photos (st_image : json -> res unit)
  (selected_camera : string) :
  rover_page st_image Unreachable selected_camera = Ok NoPhotos
  /\ rover_page st_image ErrorStatus selected_camera = Ok NoPhotos
  /\ rover_page st_image (MalformedBody true) selected_camera = Ok NoPhotos
  /\ (forall kvs photos,
        get_default kvs "photos" (JArr []) = photos ->
        truthy photos = false ->
        rover_page st_image (JsonBody (JObj kvs)) selected_camera = Ok NoPhotos)
  /\ (forall body,
        truthy body = true ->
        (forall kvs, body <> JObj kvs) ->
        rover_page st_image (JsonBody body) selected_camera = Raise AttributeError).
Proof.
  repeat split; try reflexivity.
  - intros kvs photos Hget Hfalse. unfold rover_page, rover_photos.
    cbn [fetch_nasa_data bind method_get]. unfold get_default in Hget.
    destruct (truthy (JObj kvs)); cbn [bind].
    + destruct (dict_get "photos" kvs); cbn [bind]; subst photos;
        rewrite Hfalse; reflexivity.
    + reflexivity.
  - intros body Htrue Hnot. unfold rover_page, rover_photos.
    cbn [fetch_nasa_data bind]. rewrite Htrue.
    destruct body; try reflexivity. exfalso. eapply Hnot. reflexivity.
Qed.

(** A truthy [photos] that passes line 89 is a list. *)
Lemma cameras_needs_list (photos : json) (photo_list names : list json) :
  truthy photos = true ->
  iterate photos = Ok photo_list ->
  cameras photo_list = Ok names ->
  photos = JArr photo_list.
Proof.
  intros Ht Hit Hn.
  destruct photos as [| | | |s|l|kvs]; try discriminate Hit.
  - destruct s as [|c s]; [discriminate Ht |].
    cbn in Hit. injection Hit as <-. cbn in Hn. discriminate Hn.
  - injection Hit as <-. reflexivity.
  - destruct kvs as [|[k v] kvs]; [discriminate Ht |].
    cbn in Hit. injection Hit as <-. cbn in Hn. discriminate Hn.
Qed.

(** X5: for a body with a non-empty [photos] list whose camera names can
    be listed, and a selector that is "All" or one of the listed names: when
    the photos to show (all of them under "All", those of the selected
    camera otherwise) have every field the cells read, the page shows a grid
    with at least one row that holds exactly these photos, one cell each, in
    order, photo k in row k // 3 under column k % 3; when one of them lacks
    a field the page raises. *)
Theorem rover_page_grid (st_image : json -> res unit) (kvs : dict)
  (photos names : list json) (c : string) :
  dict_get "photos" kvs = Some (JArr photos) ->
  photos <> [] ->
  cameras photos = Ok names ->
  c = "All" \/ In (JStr c) names ->
  let shown :=
    if String.eqb c "All" then photos else filter (has_camera c) photos in
  shown <> []
  /\ (forallb (photo_complete st_image) shown = true ->
      exists cells,
        rover_page st_image (JsonBody (JObj kvs)) c = Ok (PhotoGrid cells)
        /\ cells <> []
        /\ List.length (List.concat cells) = List.length shown
        /\ forall k p,
             nth_error shown k = Some p ->
             exists row cell,
               nth_error cells (k / 3) = Some row
               /\ nth_error row (k mod 3) = Some cell
               /\ cell_column cell = k mod 3
               /\ photo_cell_body st_image (k mod 3) p = Ok cell)
  /\ (forall photo,
        In photo shown ->
        photo_complete st_image photo = false ->
        is_ok (rover_page st_image (JsonBody (JObj kvs)) c) = false).
Proof.
  intros Hget Hne Hnames Hsel shown.
  assert (Hshown : filter_by_camera c photos = Ok shown /\ shown <> []).
  { unfold shown. destruct (String.eqb c "All") eqn:E.
    - apply String.eqb_eq in E. subst c.
      split; [reflexivity | exact Hne].
    - apply String.eqb_neq in E.
      destruct Hsel as [-> | Hin]; [contradiction E; reflexivity |].
      split.
      + apply filter_by_camera_filter; [exact E |].
        eapply cameras_ok_names; exact Hnames.
      + destruct (listed_camera_has_photo photos names c Hnames Hin)
          as [p [Hp Hcam]].
        intro Hnil.
        assert (Hf : In p (filter (has_camera c) photos))
          by (apply filter_In; split; assumption).
        rewrite Hnil in Hf. contradiction. }
  destruct Hshown as [Hf Hsne].
  assert (Hpage : rover_page st_image (JsonBody (JObj kvs)) c
                  = (cells <- photo_grid st_image shown ;;
                     Ok (PhotoGrid cells))).
  { unfold rover_page, rover_photos. cbn [fetch_nasa_data bind method_get].
    assert (Ht : truthy (JObj kvs) = true).
    { destruct kvs; [discriminate Hget | reflexivity]. }
    rewrite Ht, Hget. cbn [bind].
    assert (Hp : truthy (JArr photos) = true).
    { destruct photos; [contradiction Hne; reflexivity | reflexivity]. }
    rewrite Hp. cbn [negb iterate bind]. rewrite Hnames. cbn [bind].
    rewrite Hf. reflexivity. }
  split; [exact Hsne |]. split.
  - intro Hok.
    destruct (photo_grid_complete st_image shown Hok)
      as [cells [Hg [Hrows [Hlen Hpos]]]].
    exists cells. rewrite Hpage, Hg. split; [reflexivity |].
    split; [| split; [exact Hlen | exact Hpos]].
    intro Hnil. rewrite Hnil in Hlen. cbn in Hlen.
    destruct shown; [apply Hsne; reflexivity | discriminate Hlen].
  - intros photo Hin Hbad. rewrite Hpage.
    pose proof (photo_grid_raises st_image shown photo Hin Hbad) as Hr.
    destruct (photo_grid st_image shown); [discriminate Hr | reflexivity].
Qed.

Lemma rover_page_grid_witness :
  (exists cells,
     rover_page example_st_image
       (JsonBody (JObj [("photos", JArr example_full_photos)])) "FHAZ"
     = Ok (PhotoGrid cells)
     /\ cells <> []
     /\ List.length (List.concat cells) = 2
     /\ forall k p,
          nth_error [example_full_photo 1 "FHAZ"; example_full_photo 3 "FHAZ"]
            k = Some p ->
          exists row cell,
            nth_error cells (k / 3) = Some row
            /\ nth_error row (k mod 3) = Some cell
            /\ cell_column cell = k mod 3
            /\ photo_cell_body example_st_image (k mod 3) p = Ok cell)
  /\ is_ok (rover_page example_st_image
              (JsonBody (JObj [("photos", JArr example_photos)])) "FHAZ")
     = false.
Proof.
  split.
  - apply (proj1 (proj2
             (rover_page_grid example_st_image
                [("photos", JArr example_full_photos)] example_full_photos
                [JStr "FHAZ"; JStr "MAST"; JStr "FHAZ"; JStr "NAVCAM"] "FHAZ"
                eq_refl ltac:(discriminate) eq_refl
                (or_intror (or_introl eq_refl))))).
    reflexivity.
  - apply (proj2 (proj2
             (rover_page_grid example_st_image
                [("photos", JArr example_photos)] example_photos
                [JStr "FHAZ"; JStr "MAST"; JStr "FHAZ"; JStr "NAVCAM"] "FHAZ"
                eq_refl ltac:(discriminate) eq_refl
                (or_intror (or_introl eq_refl))))
             (example_photo 1 "FHAZ")).
    + left. reflexivity.
    + reflexivity.
Defined.

(** ** NEO date range *)

(** X6: for any two calendar dates the request is issued from the start
    date to the earlier of the end date and the start date plus 7 days; it
    never spans more than 7 days, an end date before the start date is
    passed on as it is, and clamping the clamped range changes nothing. *)
Theorem clamp_date_range_at_most_a_week (start_date end_date : Z) :
  valid_date start_date ->
  valid_date end_date ->
  exists end_date',
    clamp_date_range start_date end_date = Ok (start_date, end_date')
    /\ end_date' = Z.min end_date (start_date + 7)
    /\ (end_date' - start_date <= 7)%Z
    /\ valid_date end_date'
    /\ clamp_date_range start_date end_date' = Ok (start_date, end_date').
Proof.
  unfold valid_date, MAXORDINAL. intros Hs He.
  exists (Z.min end_date (start_date + 7)).
  unfold clamp_date_range, date_add_days, MAXORDINAL.
  destruct (Z.ltb_spec 7 (end_date - start_date)) as [Hd | Hd].
  - assert (H1 : (1 <=? start_date + 7)%Z = true) by (apply Z.leb_le; lia).
    assert (H2 : (start_date + 7 <=? 3652059)%Z = true)
      by (apply Z.leb_le; lia).
    rewrite H1, H2. cbn [andb bind].
    rewrite Z.min_r by lia.
    assert (H3 : (7 <? start_date + 7 - start_date)%Z = false)
      by (apply Z.ltb_ge; lia).
    rewrite H3. repeat split; try reflexivity; lia.
  - rewrite Z.min_l by lia.
    assert (H3 : (7 <? end_date - start_date)%Z = false)
      by (apply Z.ltb_ge; lia).
    rewrite H3. repeat split; try reflexivity; lia.
Qed.

Lemma clamp_date_range_week_witness :
  exists end_date',
    clamp_date_range 738886 738850 = Ok (738886, end_date')%Z
    /\ end_date' = Z.min 738850 (738886 + 7)
    /\ (end_date' - 738886 <= 7)%Z
    /\ valid_date end_date'
    /\ clamp_date_range 738886 end_date' = Ok (738886, end_date')%Z.
Proof.
  apply (clamp_date_range_at_most_a_week 738886 738850);
    unfold valid_date, MAXORDINAL; lia.
Defined.

Lemma clamp_date_range_log_dates (start_date end_date : Z) :
  clamp_date_range start_date end_date
  = (logged <- clamp_date_range_log start_date end_date ;; Ok (snd logged)).
Proof.
  unfold clamp_date_range, clamp_date_range_log.
  destruct (7 <? end_date - start_date)%Z; [| reflexivity].
  destruct (date_add_days start_date 7); reflexivity.
Qed.

(** X7: the range the two date inputs start with, seven days ago to today
    (both read off the clock on the same day), spans exactly 7 days and is
    sent as it is, and [st.sidebar.warning] is not called; in general the
    warning is given exactly when the end date is more than 7 days after
    the start date, and the dates sent are those of [clamp_date_range]. *)
Theorem default_date_range_not_clamped (today : Z) :
  valid_date today ->
  (8 <= today)%Z ->
  exists start_date,
    default_date_range today = Ok (start_date, today)
    /\ (today - start_date = 7)%Z
    /\ clamp_date_range_log start_date today = Ok ([], (start_date, today))
    /\ clamp_date_range start_date today = Ok (start_date, today)
    /\ (forall s e warnings dates,
          clamp_date_range_log s e = Ok (warnings, dates) ->
          clamp_date_range s e = Ok dates
          /\ (warnings <> [] <-> (7 < e - s)%Z)).
Proof.
  unfold valid_date, MAXORDINAL. intros Hv H8.
  exists (today - 7)%Z.
  assert (Hlog : clamp_date_range_log (today - 7) today
                 = Ok ([], ((today - 7)%Z, today))).
  { unfold clamp_date_range_log.
    assert (H3 : (7 <? today - (today - 7))%Z = false)
      by (apply Z.ltb_ge; lia).
    rewrite H3. reflexivity. }
  split; [| split; [lia | split; [exact Hlog | split]]].
  - unfold default_date_range, date_add_days, MAXORDINAL.
    replace (today + -7)%Z with (today - 7)%Z by lia.
    assert (H1 : (1 <=? today - 7)%Z = true) by (apply Z.leb_le; lia).
    assert (H2 : (today - 7 <=? 3652059)%Z = true) by (apply Z.leb_le; lia).
    rewrite H1, H2. reflexivity.
  - rewrite clamp_date_range_log_dates, Hlog. reflexivity.
  - intros s e warnings dates H.
    rewrite clamp_date_range_log_dates, H. split; [reflexivity |].
    unfold clamp_date_range_log in H.
    destruct (Z.ltb_spec 7 (e - s)) as [Hd | Hd].
    + bind_ok H. injection H as <- _.
      split; [intros _; exact Hd | intros _; discriminate].
    + injection H as <- _.
      split; [intro N; contradiction N; reflexivity | lia].
Qed.

Lemma default_date_range_witness :
  exists start_date,
    default_date_range 739000 = Ok (start_date, 739000%Z)
    /\ (739000 - start_date = 7)%Z
    /\ clamp_date_range_log start_date 739000
       = Ok ([], (start_date, 739000%Z))
    /\ clamp_date_range start_date 739000 = Ok (start_date, 739000%Z)
    /\ (forall s e warnings dates,
          clamp_date_range_log s e = Ok (warnings, dates) ->
          clamp_date_range s e = Ok dates
          /\ (warnings <> [] <-> (7 < e - s)%Z)).
Proof.
  apply (default_date_range_not_clamped 739000);
    unfold valid_date, MAXORDINAL; lia.
Defined.

(** ** Mars weather *)

Lemma weather_loop_all_absent (py : builtins) (kvs : dict) (sols : list json) :
  forallb (fun sol => hashable sol && negb (sol_present kvs sol)) sols = true ->
  forall acc, for_each (weather_step py (JObj kvs)) sols acc = Ok acc.
Proof.
  induction sols as [|sol sols IH]; intros H acc; [reflexivity |].
  cbn [forallb] in H. apply andb_true_iff in H. destruct H as [Hs Hl].
  apply andb_true_iff in Hs. destruct Hs as [Hh Hp].
  cbn [for_each]. unfold weather_step at 1.
  destruct sol; cbn [key_in bind hashable sol_present] in *;
    try discriminate Hh; try (apply IH; exact Hl).
  apply negb_true_iff in Hp. rewrite Hp. apply IH. exact Hl.
Qed.

(** X8: when the payload lists no sol that has a data block (as with an
    empty [sol_keys]), no row is built and the page raises KeyError on line
    329, where it reads the "Earth Date" column of a table without
    columns. *)
Theorem mars_weather_table_without_rows (py : builtins)
  (fmt : list weather_row -> res (list weather_row))
  (kvs : dict) (sol_keys : json) (sols : list json) :
  dict_get "sol_keys" kvs = Some sol_keys ->
  iterate sol_keys = Ok sols ->
  forallb (fun sol => hashable sol && negb (sol_present kvs sol)) sols = true ->
  mars_weather_page py (JsonBody (JObj kvs)) = Ok (WeatherTable [])
  /\ mars_weather_table py fmt (JsonBody (JObj kvs)) = Raise KeyError.
Proof.
  intros Hk Hit Habs.
  assert (Hpage : mars_weather_page py (JsonBody (JObj kvs))
                  = Ok (WeatherTable [])).
  { unfold mars_weather_page, get_mars_weather.
    cbn [fetch_nasa_data str_in].
    assert (Ht : truthy (JObj kvs) = true)
      by (destruct kvs; [discriminate Hk | reflexivity]).
    rewrite Ht. unfold dict_mem. rewrite Hk. cbn [bind].
    unfold weather_df. cbn [subscript_key]. rewrite Hk. cbn [bind].
    rewrite Hit. cbn [bind].
    rewrite (weather_loop_all_absent py kvs sols Habs). reflexivity. }
  split; [exact Hpage |].
  unfold mars_weather_table. rewrite Hpage. reflexivity.
Qed.

Lemma mars_weather_table_without_rows_witness :
  mars_weather_table example_builtins (fun rows => Ok rows)
    (JsonBody (JObj [ ("sol_keys", JArr []);
                      ("validity_checks", JObj [ ("sol_hours_required", JInt 18);
                                                 ("sols_checked", JArr []) ]) ]))
  = Raise KeyError.
Proof.
  apply (proj2 (mars_weather_table_without_rows example_builtins
                  (fun rows => Ok rows)
                  [ ("sol_keys", JArr []);
                    ("validity_checks",
                     JObj [ ("sol_hours_required", JInt 18);
                            ("sols_checked", JArr []) ]) ]
                  (JArr []) [] eq_refl eq_refl eq_refl)).
Defined.

Lemma row_sol (py : builtins) (wd : json) (k : string) (r : weather_row) :
  row py wd k = Ok r -> int_of_str py k = Some (Sol r).
Proof.
  unfold row, py_int. intro H.
  bind_ok H. bind_ok H. bind_ok H. bind_ok H.
  destruct (int_of_str py k) as [n|]; [| discriminate H]. cbn [bind] in H.
  bind_ok H. bind_ok H. bind_ok H. bind_ok H. bind_ok H. bind_ok H.
  bind_ok H. bind_ok H. injection H as <-. reflexivity.
Qed.

(** X9: the Sol column of a completed run is [int(sol)] for the listed sols
    that have a data block, in the order in which [sol_keys] lists them
    (not sorted), a sol listed twice giving two rows. *)
Theorem weather_df_sols_in_listed_order (py : builtins) (weather_data : json)
  (rows : list weather_row) :
  weather_df py weather_data = Ok rows ->
  exists kvs sol_keys sols,
    weather_data = JObj kvs
    /\ dict_get "sol_keys" kvs = Some sol_keys
    /\ iterate sol_keys = Ok sols
    /\ map (fun r => Some (Sol r)) rows
       = map (fun sol => match sol with
                         | JStr k => int_of_str py k
                         | _ => None
                         end)
           (filter (sol_present kvs) sols).
Proof.
  intro H.
  destruct (weather_df_rows_of_present py weather_data rows H)
    as [kvs [sol_keys [sols [Eq [Hk [Hit HF]]]]]].
  exists kvs, sol_keys, sols. repeat split; try assumption.
  clear - HF. induction HF as [|sol r l l' [k [-> Hr]] _ IH]; [reflexivity |].
  cbn [map]. rewrite IH, (row_sol _ _ _ _ Hr). reflexivity.
Qed.

Lemma weather_df_sols_witness :
  exists kvs sol_keys sols,
    JObj [ ("sol_keys", JArr [JStr "101"; JStr "77"; JStr "101"]);
           ("101", JObj example_sol_data); ("77", JObj []) ] = JObj kvs
    /\ dict_get "sol_keys" kvs = Some sol_keys
    /\ iterate sol_keys = Ok sols
    /\ [Some 101%Z; Some 77%Z; Some 101%Z]
       = map (fun sol => match sol with
                         | JStr k => digits_to_Z k
                         | _ => None
                         end)
           (filter (sol_present kvs) sols).
Proof.
  apply (weather_df_sols_in_listed_order example_builtins
           (JObj [ ("sol_keys", JArr [JStr "101"; JStr "77"; JStr "101"]);
                   ("101", JObj example_sol_data); ("77", JObj []) ])
           [ {| Sol := 101;
                Earth_Date := JStr "2019-03-14T00:00:00Z";
                Season := JStr "spring";
                Avg_Temp := JFloat (-60.5)%float;
                Min_Temp := JNull;
                Max_Temp := JFloat (-10.25)%float;
                Avg_Pressure := JFloat 750.5%float;
                Avg_Wind_Speed := JNull;
                Max_Wind_Speed := JNull |};
             {| Sol := 77;
                Earth_Date := JStr "Unknown";
                Season := JStr "Unknown";
                Avg_Temp := JNull; Min_Temp := JNull; Max_Temp := JNull;
                Avg_Pressure := JNull;
                Avg_Wind_Speed := JNull; Max_Wind_Speed := JNull |};
             {| Sol := 101;
                Earth_Date := JStr "2019-03-14T00:00:00Z";
                Season := JStr "spring";
                Avg_Temp := JFloat (-60.5)%float;
                Min_Temp := JNull;
                Max_Temp := JFloat (-10.25)%float;
                Avg_Pressure := JFloat 750.5%float;
                Avg_Wind_Speed := JNull;
                Max_Wind_Speed := JNull |} ]).
  reflexivity.
Defined.

Lemma sensor_block_readings (sol_data : dict) (code : string) :
  sensor_ok sol_data code = true ->
  exists block,
    method_get (JObj sol_data) code (JObj []) = Ok (JObj block)
    /\ forall agg,
         method_get (JObj block) agg JNull = Ok (reading sol_data code agg).
Proof.
  unfold sensor_ok, reading. cbn [method_get].
  destruct (dict_get code sol_data) as [v|].
  - destruct v as [| | | | | |block]; try discriminate. intros _.
    exists block. split; [reflexivity |].
    intro agg. cbn [method_get]. destruct (dict_get agg block); reflexivity.
  - intros _. exists []. split; reflexivity.
Qed.

(** X10: for a sol with a data block, an identifier that reads as the
    integer n and sensor blocks that are objects, the row is exactly: Sol n,
    the block's First_UTC and Season (the text "Unknown" where absent) and,
    for each of the six measurements, the payload's own value unchanged, be
    it 0 or null, or None where the block or the aggregate is absent. *)
Theorem row_copies_readings (py : builtins) (kvs sol_data : dict)
  (sol : string) (n : Z) :
  dict_get sol kvs = Some (JObj sol_data) ->
  int_of_str py sol = Some n ->
  sensor_ok sol_data "AT" = true ->
  sensor_ok sol_data "PRE" = true ->
  sensor_ok sol_data "HWS" = true ->
  row py (JObj kvs) sol
  = Ok {| Sol := n;
          Earth_Date := get_default sol_data "First_UTC" (JStr "Unknown");
          Season := get_default sol_data "Season" (JStr "Unknown");
          Avg_Temp := reading sol_data "AT" "av";
          Min_Temp := reading sol_data "AT" "mn";
          Max_Temp := reading sol_data "AT" "mx";
          Avg_Pressure := reading sol_data "PRE" "av";
          Avg_Wind_Speed := reading sol_data "HWS" "av";
          Max_Wind_Speed := reading sol_data "HWS" "mx" |}.
Proof.
  intros Hsol Hint HAT HPRE HHWS.
  destruct (sensor_block_readings sol_data "AT" HAT) as [temp [Et Ht]].
  destruct (sensor_block_readings sol_data "PRE" HPRE) as [pre [Ep Hp]].
  destruct (sensor_block_readings sol_data "HWS" HHWS) as [wind [Ew Hw]].
  unfold row, py_int. cbn [subscript_key]. rewrite Hsol, Hint. cbn [bind].
  rewrite Et, Ep, Ew. cbn [bind].
  rewrite !Ht, !Hp, !Hw. cbn [bind method_get]. unfold get_default.
  destruct (dict_get "First_UTC" sol_data);
    destruct (dict_get "Season" sol_data); reflexivity.
Qed.

Lemma row_copies_readings_witness :
  row example_builtins
    (JObj [ ("7", JObj [ ("AT", JObj [ ("av", JInt 0); ("mn", JNull) ]);
                         ("Season", JStr "fall") ]) ]) "7"
  = Ok {| Sol := 7;
          Earth_Date := JStr "Unknown";
          Season := JStr "fall";
          Avg_Temp := JInt 0;
          Min_Temp := JNull;
          Max_Temp := JNull;
          Avg_Pressure := JNull;
          Avg_Wind_Speed := JNull;
          Max_Wind_Speed := JNull |}.
Proof.
  apply (row_copies_readings example_builtins
           [ ("7", JObj [ ("AT", JObj [ ("av", JInt 0); ("mn", JNull) ]);
                          ("Season", JStr "fall") ]) ]
           [ ("AT", JObj [ ("av", JInt 0); ("mn", JNull) ]);
             ("Season", JStr "fall") ]
           "7" 7 eq_refl eq_refl eq_refl eq_refl eq_refl).
Defined.

Lemma method_get_object (sol_data : dict) (k : string) (d : json) :
  exists v, method_get (JObj sol_data) k d = Ok v
            /\ (sensor_ok sol_data k = false -> forall a d',
                  method_get v a d' = Raise AttributeError)
            /\ (sensor_ok sol_data k = true -> d = JObj [] ->
                forall a d', is_ok (method_get v a d') = true).
Proof.
  unfold sensor_ok. cbn [method_get].
  destruct (dict_get k sol_data) as [v|].
  - exists v. split; [reflexivity |]. split.
    + destruct v; try discriminate; reflexivity.
    + destruct v; try discriminate. intros _ _ a d'. cbn [method_get].
      destruct (dict_get a kvs); reflexivity.
  - exists d. split; [reflexivity |]. split; [discriminate |].
    intros _ -> a d'. reflexivity.
Qed.

(** X11: what makes a listed sol fail: a data entry that is not an object
    raises AttributeError; an identifier that [int] rejects raises
    ValueError; with an identifier that reads as an integer, a sensor block
    that is present but not an object (such as null) raises AttributeError;
    and a failing sol makes the whole table fail, whatever the other sols
    are. *)
Theorem row_failures (py : builtins) (kvs : dict) (sol : string) (v : json) :
  dict_get sol kvs = Some v ->
  ((forall sol_data, v <> JObj sol_data) ->
   row py (JObj kvs) sol = Raise AttributeError)
  /\ (forall sol_data,
        v = JObj sol_data ->
        (int_of_str py sol = None ->
         row py (JObj kvs) sol = Raise ValueError)
        /\ (int_of_str py sol <> None ->
            sensor_ok sol_data "AT" && sensor_ok sol_data "PRE"
            && sensor_ok sol_data "HWS" = false ->
            row py (JObj kvs) sol = Raise AttributeError))
  /\ (forall sol_keys sols,
        dict_get "sol_keys" kvs = Some sol_keys ->
        iterate sol_keys = Ok sols ->
        In (JStr sol) sols ->
        is_ok (row py (JObj kvs) sol) = false ->
        is_ok (weather_df py (JObj kvs)) = false).
Proof.
  intro Hsol. split; [| split].
  - intro Hnot. unfold row. cbn [subscript_key]. rewrite Hsol. cbn [bind].
    destruct v; try reflexivity. exfalso. eapply Hnot. reflexivity.
  - intros sol_data ->. unfold row, py_int. cbn [subscript_key].
    rewrite Hsol. cbn [bind].
    destruct (method_get_object sol_data "AT" (JObj []))
      as [temp [-> [Tbad Tok]]].
    destruct (method_get_object sol_data "PRE" (JObj []))
      as [pre [-> [Pbad Pok]]].
    destruct (method_get_object sol_data "HWS" (JObj []))
      as [wind [-> [Wbad Wok]]].
    cbn [bind]. split.
    + intros ->. reflexivity.
    + intros Hn Hbad. destruct (int_of_str py sol) as [n|]; [| congruence].
      cbn [bind].
      destruct (method_get_object sol_data "First_UTC" (JStr "Unknown"))
        as [v1 [-> _]].
      destruct (method_get_object sol_data "Season" (JStr "Unknown"))
        as [v2 [-> _]].
      cbn [bind].
      destruct (sensor_ok sol_data "AT") eqn:EA.
      * pose proof (Tok eq_refl eq_refl) as T.
        pose proof (T "av" JNull) as T1. pose proof (T "mn" JNull) as T2.
        pose proof (T "mx" JNull) as T3.
        destruct (method_get temp "av" JNull); [| discriminate T1].
        destruct (method_get temp "mn" JNull); [| discriminate T2].
        destruct (method_get temp "mx" JNull); [| discriminate T3].
        cbn [bind].
        destruct (sensor_ok sol_data "PRE") eqn:EP.
        -- pose proof (Pok eq_refl eq_refl "av" JNull) as P1.
           destruct (method_get pre "av" JNull); [| discriminate P1].
           cbn [bind].
           destruct (sensor_ok sol_data "HWS") eqn:EW; [discriminate Hbad |].
           rewrite (Wbad eq_refl). reflexivity.
        -- rewrite (Pbad eq_refl). reflexivity.
      * rewrite (Tbad eq_refl). reflexivity.
  - intros sol_keys sols Hk Hit Hin Hrow.
    unfold weather_df. cbn [subscript_key]. rewrite Hk. cbn [bind].
    rewrite Hit. cbn [bind].
    apply (for_each_raises _ _ (JStr sol) Hin).
    intro acc. unfold weather_step. cbn [key_in]. unfold dict_mem.
    rewrite Hsol. cbn [bind].
    destruct (row py (JObj kvs) sol); [discriminate Hrow | reflexivity].
Qed.

Lemma row_failures_witness :
  row example_builtins
    (JObj [ ("sol_keys", JArr [JStr "101"]);
            ("101", JObj [ ("AT", JNull) ]) ]) "101"
  = Raise AttributeError.
Proof.
  apply (proj2 (proj1 (proj2
           (row_failures example_builtins
              [ ("sol_keys", JArr [JStr "101"]);
                ("101", JObj [ ("AT", JNull) ]) ]
              "101" (JObj [ ("AT", JNull) ]) eq_refl))
           [ ("AT", JNull) ] eq_refl)).
  - discriminate.
  - reflexivity.
Defined.

(** X12: the weather page shows a table exactly when what
    [get_mars_weather] returned is an object that has a [sol_keys] entry and
    the row loop completes on it; every falsy value, None included, and
    every object without [sol_keys] gives the "unable to retrieve" message
    without raising. *)
Theorem mars_weather_page_table_iff (py : builtins) (o : http_outcome)
  (rows : list weather_row) :
  (mars_weather_page py o = Ok (WeatherTable rows)
   <-> exists kvs,
         get_mars_weather o = JObj kvs
         /\ dict_mem "sol_keys" kvs = true
         /\ weather_df py (JObj kvs) = Ok rows)
  /\ (truthy (get_mars_weather o) = false ->
      mars_weather_page py o = Ok WeatherUnavailable)
  /\ (forall kvs,
        get_mars_weather o = JObj kvs ->
        dict_mem "sol_keys" kvs = false ->
        mars_weather_page py o = Ok WeatherUnavailable).
Proof.
  unfold mars_weather_page. split; [| split].
  - split.
    + intro H. destruct (truthy (get_mars_weather o)); [| discriminate H].
      bind_ok H. destruct a; [| discriminate H]. bind_ok H.
      injection H as <-.
      unfold weather_df in E0. bind_ok E0.
      destruct (subscript_key_dict _ _ _ E1) as [kvs [Hwd Hk]].
      exists kvs. rewrite Hwd in *. split; [reflexivity |].
      split.
      * unfold dict_mem. rewrite Hk. reflexivity.
      * unfold weather_df. rewrite E1. exact E0.
    + intros [kvs [Hwd [Hk Hdf]]]. rewrite Hwd.
      assert (Ht : truthy (JObj kvs) = true).
      { destruct kvs; [discriminate Hk | reflexivity]. }
      rewrite Ht. cbn [str_in bind]. rewrite Hk, Hdf. reflexivity.
  - intros ->. reflexivity.
  - intros kvs -> Hk. destruct (truthy (JObj kvs)); [| reflexivity].
    cbn [str_in bind]. rewrite Hk. reflexivity.
Qed.

(** ** Near Earth Objects *)

Lemma collect_is_ok {A B : Type} (f : A -> res (list B)) (l : list A) :
  is_ok (collect f l) = forallb (fun x => is_ok (f x)) l.
Proof.
  induction l as [|x l IH]; [reflexivity |].
  cbn [collect forallb]. destruct (f x); cbn [bind is_ok andb]; [| reflexivity].
  rewrite <- IH. destruct (collect f l); reflexivity.
Qed.

Lemma forallb_pointwise {A : Type} (f g : A -> bool) (l : list A) :
  (forall x, f x = g x) -> forallb f l = forallb g l.
Proof.
  intro H. induction l as [|x l IH]; [reflexivity |].
  cbn [forallb]. rewrite H, IH. reflexivity.
Qed.

(** X13: the table is all or nothing: on a feed whose [near_earth_objects]
    is an object, the normalizer returns records exactly when every day's
    value can be iterated and every object of every day normalizes; one
    object that fails loses the records of all the others. *)
Theorem neo_data_all_or_nothing (py : builtins) (data : json)
  (by_date : dict) :
  subscript_key data "near_earth_objects" = Ok (JObj by_date) ->
  is_ok (neo_data py data)
  = forallb
      (fun entry =>
         match iterate (snd entry) with
         | Ok neos =>
             forallb (fun neo => is_ok (neo_info py (fst entry) neo)) neos
         | Raise _ => false
         end)
      by_date.
Proof.
  intro H. rewrite neo_data_collect, H. cbn [bind method_items].
  rewrite collect_is_ok. apply forallb_pointwise. intros [date neos].
  unfold day_batch. cbn [fst snd].
  destruct (iterate neos) as [l|]; cbn [bind]; [| reflexivity].
  rewrite collect_is_ok. apply forallb_pointwise. intro neo.
  unfold neo_batch. destruct (neo_info py date neo); reflexivity.
Qed.

Lemma neo_data_all_or_nothing_witness :
  is_ok (neo_data example_builtins
           (JObj [ ("near_earth_objects",
                    JObj [ ("2024-01-01",
                            JArr [ JObj example_neo_fields;
                                   JObj no_approach_fields ]) ]) ]))
  = false.
Proof.
  rewrite (neo_data_all_or_nothing example_builtins
             (JObj [ ("near_earth_objects",
                      JObj [ ("2024-01-01",
                              JArr [ JObj example_neo_fields;
                                     JObj no_approach_fields ]) ]) ])
             [ ("2024-01-01",
                JArr [ JObj example_neo_fields; JObj no_approach_fields ]) ]
             eq_refl).
  vm_compute. reflexivity.
Defined.

Lemma valid_neo_identity (py : builtins) (date : string) (neo : json) :
  valid_neo py neo = true ->
  exists r, neo_info py date neo = Ok r /\ same_identity (date, neo) r.
Proof.
  intro H. destruct (valid_neo_info py date neo H) as [r [Hr _]].
  exists r. split; [exact Hr |].
  unfold neo_info in Hr. unfold same_identity. cbn [fst snd].
  destruct (subscript_key neo "id") as [v_id|]; [| discriminate Hr].
  destruct (subscript_key neo "name") as [v_name|]; [| discriminate Hr].
  cbn [bind] in Hr. bind_ok Hr. bind_ok Hr.
  destruct (subscript_key neo "is_potentially_hazardous_asteroid")
    as [v_haz|]; [| discriminate Hr].
  cbn [bind] in Hr. bind_ok Hr. bind_ok Hr. bind_ok Hr. bind_ok Hr.
  bind_ok Hr. injection Hr as <-. cbn. repeat split; reflexivity.
Qed.

Lemma valid_neos_identity (py : builtins) (date : string) (l : list json) :
  forallb (valid_neo py) l = true ->
  exists rs, collect (neo_batch py date) l = Ok rs
             /\ Forall2 same_identity (map (pair date) l) rs.
Proof.
  induction l as [|neo l IH]; intro H.
  - exists []. split; [reflexivity | constructor].
  - cbn [forallb] in H. apply andb_true_iff in H. destruct H as [Hn Hl].
    destruct (valid_neo_identity py date neo Hn) as [r [Hr Hb]].
    destruct (IH Hl) as [rs [Hrs HF]].
    exists (r :: rs). split; [| constructor; assumption].
    cbn [collect]. unfold neo_batch at 1. rewrite Hr. cbn [bind].
    rewrite Hrs. reflexivity.
Qed.

Lemma valid_days_identity (py : builtins) (entries : dict) :
  forallb (valid_day py) entries = true ->
  exists rs,
    collect (day_batch py) entries = Ok rs
    /\ Forall2 same_identity
         (List.concat
            (map (fun entry => map (pair (fst entry)) (day_entries entry))
               entries)) rs.
Proof.
  induction entries as [|[date neos] entries IH]; intro H.
  - exists []. split; [reflexivity | constructor].
  - cbn [forallb] in H. apply andb_true_iff in H. destruct H as [Hd Hl].
    unfold valid_day in Hd. cbn [snd] in Hd.
    destruct neos as [| | | | |l|]; try discriminate.
    destruct (valid_neos_identity py date l Hd) as [rs1 [H1 F1]].
    destruct (IH Hl) as [rs2 [H2 F2]].
    exists (rs1 ++ rs2). split.
    + cbn [collect]. unfold day_batch at 1. cbn [fst snd iterate bind].
      rewrite H1. cbn [bind]. rewrite H2. reflexivity.
    + cbn [map List.concat]. unfold day_entries at 1. cbn [fst snd].
      apply Forall2_app; assumption.
Qed.

(** X14: on a well-formed feed every record carries, unchanged, the id,
    the name and the hazard flag of its source object, and as its date the
    key of the day under which the object is listed; an object listed under
    two days gives two records. *)
Theorem neo_data_keeps_identity (py : builtins) (data : json) :
  valid_feed py data = true ->
  exists records,
    neo_data py data = Ok records
    /\ Forall2 same_identity (dated_entries data) records.
Proof.
  intro H. unfold valid_feed in H. unfold dated_entries.
  rewrite neo_data_collect.
  destruct (subscript_key data "near_earth_objects") as [m|]; [| discriminate].
  destruct m as [| | | | | |by_date]; try discriminate.
  cbn [bind method_items].
  apply valid_days_identity. exact H.
Qed.

Lemma neo_data_keeps_identity_witness :
  exists records,
    neo_data example_builtins example_feed = Ok records
    /\ Forall2 same_identity (dated_entries example_feed) records.
Proof.
  apply (neo_data_keeps_identity example_builtins example_feed).
  vm_compute. reflexivity.
Defined.

Lemma empty_days_no_records (py : builtins) (by_date : dict) :
  forallb (fun entry => match snd entry with
                        | JArr [] => true
                        | _ => false
                        end) by_date = true ->
  collect (day_batch py) by_date = Ok [].
Proof.
  induction by_date as [|[date neos] by_date IH]; intro H; [reflexivity |].
  cbn [forallb snd] in H. apply andb_true_iff in H. destruct H as [Hd Hl].
  destruct neos as [| | | | |l|]; try discriminate Hd.
  destruct l; [| discriminate Hd].
  cbn [collect]. unfold day_batch at 1. cbn [fst snd iterate bind collect].
  rewrite (IH Hl). reflexivity.
Qed.

(** X15: the NEO page stays blank, without raising, when the fetch failed
    or the body is empty; a body without [near_earth_objects] raises
    KeyError; a feed with no object at all (no day, or only empty days)
    normalizes to no record and then raises KeyError when the page reads a
    column of the empty table; with at least one record the table holds all
    records, or those whose flag equals True under the hazard filter. *)
Theorem neo_frame_cases (py : builtins) (show_hazardous_only : bool) :
  neo_frame py Unreachable show_hazardous_only = Ok None
  /\ neo_frame py (JsonBody (JObj [])) show_hazardous_only = Ok None
  /\ (forall kvs,
        kvs <> [] ->
        dict_get "near_earth_objects" kvs = None ->
        neo_frame py (JsonBody (JObj kvs)) show_hazardous_only
        = Raise KeyError)
  /\ (forall kvs by_date,
        dict_get "near_earth_objects" kvs = Some (JObj by_date) ->
        forallb (fun entry => match snd entry with
                              | JArr [] => true
                              | _ => false
                              end) by_date = true ->
        neo_data py (JObj kvs) = Ok []
        /\ neo_frame py (JsonBody (JObj kvs)) show_hazardous_only
           = Raise KeyError)
  /\ (forall data r rs,
        truthy data = true ->
        neo_data py data = Ok (r :: rs) ->
        neo_frame py (JsonBody data) show_hazardous_only
        = Ok (Some {| has_columns := true;
                      frame_rows :=
                        if show_hazardous_only
                        then filter (fun x => eq_True (is_hazardous x))
                               (r :: rs)
                        else r :: rs |})).
Proof.
  split; [reflexivity |]. split; [reflexivity |].
  split; [| split].
  - intros kvs Hne Hk. unfold neo_frame. cbn [fetch_nasa_data bind].
    assert (Ht : truthy (JObj kvs) = true)
      by (destruct kvs; [contradiction Hne; reflexivity | reflexivity]).
    rewrite Ht. unfold neo_data. cbn [subscript_key]. rewrite Hk. reflexivity.
  - intros kvs by_date Hk Hempty.
    assert (Hd : neo_data py (JObj kvs) = Ok []).
    { rewrite neo_data_collect. cbn [subscript_key]. rewrite Hk.
      cbn [bind method_items]. apply empty_days_no_records. exact Hempty. }
    split; [exact Hd |].
    unfold neo_frame. cbn [fetch_nasa_data bind].
    assert (Ht : truthy (JObj kvs) = true)
      by (destruct kvs; [discriminate Hk | reflexivity]).
    rewrite Ht, Hd. cbn [bind]. destruct show_hazardous_only; reflexivity.
  - intros data r rs Ht Hd. unfold neo_frame. cbn [fetch_nasa_data bind].
    rewrite Ht, Hd. cbn [bind]. destruct show_hazardous_only; reflexivity.
Qed.

Lemma neo_frame_empty_feed_witness :
  neo_data example_builtins
    (JObj [ ("element_count", JInt 0);
            ("near_earth_objects", JObj [ ("2024-01-02", JArr []) ]) ])
  = Ok []
  /\ neo_frame example_builtins
       (JsonBody (JObj [ ("element_count", JInt 0);
                         ("near_earth_objects",
                          JObj [ ("2024-01-02", JArr []) ]) ])) false
     = Raise KeyError.
Proof.
  apply (proj1 (proj2 (proj2 (proj2 (neo_frame_cases example_builtins false))))
           [ ("element_count", JInt 0);
             ("near_earth_objects", JObj [ ("2024-01-02", JArr []) ]) ]
           [ ("2024-01-02", JArr []) ] eq_refl eq_refl).
Defined.

(** ** EPIC *)

Lemma split_go_none (c : ascii) (s : string) :
  no_char c s = true ->
  forall cur, split_go (String c "") s 0 cur = [(cur ++ s)%string].
Proof.
  induction s as [|d s IH]; intros Hno cur.
  - cbn [split_go]. rewrite string_app_nil_r. reflexivity.
  - cbn [no_char] in Hno. apply andb_true_iff in Hno.
    destruct Hno as [Hd Hs].
    cbn [split_go String.prefix].
    destruct (ascii_dec c d) as [->|N].
    + rewrite Ascii.eqb_refl in Hd. discriminate.
    + rewrite (IH Hs). rewrite string_app_assoc. reflexivity.
Qed.

(** X16: the time shown for an image is the clock part of its date string
    cut at the first dot: for "day hms" and for "day hms.fff" alike it is
    "hms". *)
Theorem image_time_truncates (kvs : dict) (day hms rest : string) :
  dict_get "date" kvs = Some (JStr (day ++ " " ++ hms ++ rest)) ->
  no_char " " day = true ->
  no_char " " hms = true ->
  no_char "." hms = true ->
  fraction_ok rest = true ->
  image_time (JObj kvs) = Ok hms.
Proof.
  intros Hdate Hday Hs Hd Hrest. unfold image_time.
  cbn [subscript_key]. rewrite Hdate. cbn [bind as_str].
  unfold str_split. cbn [String.eqb Ascii.eqb Bool.eqb bind].
  change (day ++ " " ++ hms ++ rest)%string
    with (day ++ String " " (hms ++ rest))%string.
  rewrite (split_go_until " " day (hms ++ rest) Hday "").
  cbn [list_index nth_error].
  destruct rest as [|c frac].
  - rewrite string_app_nil_r.
    rewrite (split_go_none " " hms Hs "").
    cbn [list_index nth_error bind String.append].
    rewrite (split_go_none "." hms Hd ""). reflexivity.
  - cbn [fraction_ok] in Hrest. apply andb_true_iff in Hrest.
    destruct Hrest as [Hc Hfrac]. apply Ascii.eqb_eq in Hc. subst c.
    assert (Hno : no_char " " (hms ++ String "." frac) = true).
    { rewrite no_char_app, Hs. cbn [no_char andb]. exact Hfrac. }
    rewrite (split_go_none " " _ Hno "").
    cbn [list_index nth_error bind String.append].
    rewrite (split_go_until "." hms frac Hd "").
    reflexivity.
Qed.

Lemma image_time_truncates_witness :
  image_time (JObj [ ("identifier", JStr "20230714020554_01");
                     ("date", JStr "2023-07-14 02:01:05.250") ])
  = Ok "02:01:05".
Proof.
  apply (image_time_truncates
           [ ("identifier", JStr "20230714020554_01");
             ("date", JStr "2023-07-14 02:01:05.250") ]
           "2023-07-14" "02:01:05" ".250"
           eq_refl eq_refl eq_refl eq_refl eq_refl).
Defined.

(** X17: what makes the URL builder fail: a descriptor without [date]
    raises KeyError, a [date] that is not a str raises AttributeError, a
    date string without a space raises IndexError (from the time of line
    436, which the URL does not use), and a descriptor with a good date but
    no [identifier] raises KeyError. *)
Theorem image_url_failures (py : builtins) (type_param api_key : string)
  (kvs : dict) :
  (dict_get "date" kvs = None ->
   image_url py type_param api_key (JObj kvs) = Raise KeyError)
  /\ (forall v,
        dict_get "date" kvs = Some v ->
        (forall s, v <> JStr s) ->
        image_url py type_param api_key (JObj kvs) = Raise AttributeError)
  /\ (forall s,
        dict_get "date" kvs = Some (JStr s) ->
        no_char " " s = true ->
        image_url py type_param api_key (JObj kvs) = Raise IndexError)
  /\ (forall day clock,
        dict_get "date" kvs = Some (JStr (day ++ " " ++ clock)) ->
        no_char " " day = true ->
        dict_get "identifier" kvs = None ->
        image_url py type_param api_key (JObj kvs) = Raise KeyError).
Proof.
  unfold image_url. split; [| split; [| split]].
  - intro H. unfold image_date. cbn [subscript_key]. rewrite H. reflexivity.
  - intros v H Hnot. unfold image_date. cbn [subscript_key]. rewrite H.
    cbn [bind]. destruct v; try reflexivity. exfalso. eapply Hnot. reflexivity.
  - intros s H Hno. unfold image_date, image_time.
    cbn [subscript_key]. rewrite H. cbn [bind as_str].
    unfold str_split. cbn [String.eqb Ascii.eqb Bool.eqb bind].
    rewrite (split_go_none " " s Hno ""). reflexivity.
  - intros day clock H Hday Hid.
    rewrite (image_date_of kvs day clock H Hday).
    destruct (image_time_ok kvs day clock H Hday) as [t ->].
    cbn [bind subscript_key]. rewrite Hid. reflexivity.
Qed.

Lemma replace_hyphen_get (s : string) :
  forall i,
    String.get i (replace_go "-" "/" s 0)
    = option_map slash_for_hyphen (String.get i s).
Proof.
  induction s as [|c s IH]; intro i; [reflexivity |].
  cbn [replace_go String.prefix]. unfold slash_for_hyphen at 1.
  destruct (ascii_dec "-" c) as [<-|N].
  - assert (P : String.prefix "" s = true) by (destruct s; reflexivity).
    rewrite P. cbn [String.length Nat.sub String.append].
    destruct i as [|i]; cbn [String.get option_map]; [reflexivity |].
    apply IH.
  - destruct i as [|i]; cbn [String.get option_map].
    + destruct (Ascii.eqb_spec c "-") as [->|_]; [contradiction N |];
        reflexivity.
    + apply IH.
Qed.

Lemma replace_hyphen_shape (s : string) :
  String.length (replace_go "-" "/" s 0) = String.length s
  /\ no_char "-" (replace_go "-" "/" s 0) = true.
Proof.
  induction s as [|c s [IHl IHn]]; [split; reflexivity |].
  cbn [replace_go String.prefix].
  destruct (ascii_dec "-" c) as [<-|N].
  - assert (P : String.prefix "" s = true) by (destruct s; reflexivity).
    rewrite P. cbn [String.length Nat.sub String.append no_char].
    rewrite IHl, IHn. split; reflexivity.
  - cbn [String.length no_char]. rewrite IHl, IHn.
    destruct (Ascii.eqb_spec c "-") as [->|_]; [contradiction N; reflexivity |].
    split; reflexivity.
Qed.

(** X18: the date segment of the URL is the date component of the
    descriptor with every hyphen turned into a slash and every other
    character, leading zeros included, kept in place: it has the same
    length and no hyphen is left. *)
Theorem image_date_segment (kvs : dict) (day clock : string) :
  dict_get "date" kvs = Some (JStr (day ++ " " ++ clock)) ->
  no_char " " day = true ->
  exists d,
    image_date (JObj kvs) = Ok d
    /\ String.length d = String.length day
    /\ no_char "-" d = true
    /\ forall i,
         String.get i d = option_map slash_for_hyphen (String.get i day).
Proof.
  intros Hdate Hday. exists (str_replace day "-" "/").
  split; [apply (image_date_of kvs day clock Hdate Hday) |].
  unfold str_replace. cbn [String.eqb Ascii.eqb Bool.eqb].
  destruct (replace_hyphen_shape day) as [Hl Hn].
  repeat split; try assumption. apply replace_hyphen_get.
Qed.

Lemma image_date_segment_witness :
  exists d,
    image_date (JObj example_epic_fields) = Ok d
    /\ String.length d = 10
    /\ no_char "-" d = true
    /\ forall i,
         String.get i d
         = option_map slash_for_hyphen (String.get i "2023-07-14").
Proof.
  apply (image_date_segment example_epic_fields "2023-07-14" "00:13:03"
           eq_refl eq_refl).
Defined.

Lemma timelapse_cell_view (py : builtins) (type_param api_key : string)
  (j : nat) (image : json) (u : string) :
  image_url py type_param api_key image = Ok u ->
  j < cols ->
  timelapse_cell py type_param api_key (st_columns cols) (j, image)
  = Ok (cell_view py type_param api_key (j, image)).
Proof.
  intros H Hj. unfold timelapse_cell, cell_view. cbn [fst snd].
  rewrite (st_columns_index cols j Hj). cbn [bind]. rewrite H.
  unfold image_url in H.
  destruct (image_date image) as [d|]; [| discriminate H].
  destruct (image_time image) as [t|]; [| discriminate H].
  destruct (subscript_key image "identifier") as [i|]; [| discriminate H].
  cbn [bind] in H |- *. injection H as <-. reflexivity.
Qed.

Lemma timelapse_row_view (py : builtins) (type_param api_key : string)
  (row : list json) :
  Forall (fun image => is_ok (image_url py type_param api_key image) = true)
    row ->
  List.length row <= cols ->
  for_each
    (fun acc cell =>
       c <- timelapse_cell py type_param api_key (st_columns cols) cell ;;
       Ok (acc ++ [c]))
    (enumerate row) []
  = Ok (map (cell_view py type_param api_key) (enumerate row)).
Proof.
  intros Hok Hlen.
  rewrite (for_each_collect _
             (fun cell =>
                c <- timelapse_cell py type_param api_key (st_columns cols)
                       cell ;;
                Ok [c])).
  - rewrite (collect_map _ (cell_view py type_param api_key)); [reflexivity |].
    intros [j image] Hin.
    pose proof (enumerate_index row (j, image) Hin) as Hj. cbn [fst] in Hj.
    unfold enumerate in Hin. apply in_combine_r in Hin.
    rewrite Forall_forall in Hok. specialize (Hok image Hin).
    destruct (image_url py type_param api_key image) as [u|] eqn:E;
      [| discriminate Hok].
    rewrite (timelapse_cell_view py type_param api_key j image u E)
      by lia.
    reflexivity.
  - intros acc cell.
    destruct (timelapse_cell py type_param api_key (st_columns cols) cell);
      reflexivity.
Qed.

Lemma timelapse_view (py : builtins) (type_param api_key : string)
  (epic_data : list json) :
  Forall (fun image => is_ok (image_url py type_param api_key image) = true)
    epic_data ->
  timelapse py type_param api_key epic_data
  = Ok (map (fun row => map (cell_view py type_param api_key) (enumerate row))
          (grid_rows epic_data)).
Proof.
  intro Hok. unfold timelapse.
  rewrite (for_each_collect _
             (fun i =>
                cells <- for_each
                           (fun acc cell =>
                              c <- timelapse_cell py type_param api_key
                                     (st_columns cols) cell ;;
                              Ok (acc ++ [c]))
                           (enumerate (slice epic_data i (i + cols))) [] ;;
                Ok [cells])).
  - rewrite (collect_map _
               (fun i => map (cell_view py type_param api_key)
                           (enumerate (slice epic_data i (i + cols))))).
    + unfold grid_rows. rewrite map_map. reflexivity.
    + intros i Hi.
      assert (Hrow : In (slice epic_data i (i + cols)) (grid_rows epic_data)).
      { unfold grid_rows. apply in_map_iff. exists i. split; [reflexivity |].
        exact Hi. }
      rewrite timelapse_row_view; [reflexivity | | apply slice_length_le].
      apply Forall_forall. intros image Himg.
      rewrite Forall_forall in Hok. apply Hok.
      eapply grid_row_members; eassumption.
  - intros acc i. cbn zeta.
    match goal with
    | |- bind ?m _ = _ => destruct m; reflexivity
    end.
Qed.

Lemma url_batch_urls (py : builtins) (type_param api_key : string)
  (images : list json) :
  forall urls,
    collect (url_batch py type_param api_key) images = Ok urls ->
    urls = map (fun image =>
                  url_of (cell_view py type_param api_key (0, image))) images.
Proof.
  induction images as [|image images IH]; intros urls H.
  - cbn in H. injection H as <-. reflexivity.
  - cbn [collect] in H. bind_ok H. bind_ok H. injection H as <-.
    unfold url_batch in E. bind_ok E. injection E as <-.
    cbn [map app]. rewrite <- (IH _ eq_refl).
    unfold url_of, cell_view. cbn [fst snd]. rewrite E1. reflexivity.
Qed.

(** X19: when the URL of every image of the day can be built, the
    timelapse shows every image exactly once: its rows are the groups of
    three, the columns of a row are 0, 1, 2 in order (the subscript
    [columns[j]] never leaves the three columns), and the URLs read row by
    row are, in order, the URLs the single-image view builds for the same
    descriptors. *)
Theorem timelapse_shows_every_image (py : builtins)
  (type_param api_key : string) (epic_data : list json) (urls : list string) :
  collect (url_batch py type_param api_key) epic_data = Ok urls ->
  exists rows,
    timelapse py type_param api_key epic_data = Ok rows
    /\ map url_of (List.concat rows) = urls
    /\ map (map column_of) rows
       = map (fun row => seq 0 (List.length row)) (grid_rows epic_data)
    /\ List.length rows = rows_needed (List.length epic_data).
Proof.
  intro H.
  assert (Hok : Forall (fun image =>
                          is_ok (image_url py type_param api_key image) = true)
                  epic_data).
  { apply collect_ok_all in H. eapply Forall_impl; [| exact H].
    intros image Hi. unfold url_batch in Hi.
    destruct (image_url py type_param api_key image);
      [reflexivity | discriminate Hi]. }
  eexists. split; [apply (timelapse_view py type_param api_key _ Hok) |].
  split; [| split].
  - rewrite concat_map, map_map.
    rewrite (map_ext _
               (map (fun image =>
                       url_of (cell_view py type_param api_key (0, image))))).
    + rewrite <- concat_map, grid_rows_concat.
      symmetry. apply url_batch_urls. exact H.
    + intro row. rewrite map_map.
      rewrite <- (combine_seq_snd row 0) at 2. rewrite map_map.
      apply map_ext. intros [j image]. reflexivity.
  - rewrite map_map. apply map_ext. intro row. rewrite map_map.
    rewrite <- (combine_seq_fst row 0). unfold enumerate.
    apply map_ext. intros [j image]. reflexivity.
  - rewrite length_map, grid_rows_eq, length_map, length_seq. reflexivity.
Qed.

Lemma timelapse_witness :
  exists rows,
    timelapse example_builtins "natural" "DEMO_KEY" example_images = Ok rows
    /\ map url_of (List.concat rows)
       = [ "https://api.nasa.gov/EPIC/archive/natural/2023/07/14/png/20230714001751_01.png?api_key=DEMO_KEY";
           "https://api.nasa.gov/EPIC/archive/natural/2023/07/14/png/20230714020554_01.png?api_key=DEMO_KEY";
           "https://api.nasa.gov/EPIC/archive/natural/2023/07/14/png/20230714035356_01.png?api_key=DEMO_KEY";
           "https://api.nasa.gov/EPIC/archive/natural/2023/07/14/png/20230714054159_01.png?api_key=DEMO_KEY" ]
    /\ map (map column_of) rows = [[0; 1; 2]; [0]]
    /\ List.length rows = 2.
Proof.
  apply (timelapse_shows_every_image example_builtins "natural" "DEMO_KEY"
           example_images).
  vm_compute. reflexivity.
Defined.

(** X20: the EPIC page shows its "no images" branch, without raising, when
    the fetch failed and when the day has no image; for an array of images
    it builds the URL and the time of the image at the slider's position,
    and of the only image when there is one (no slider is shown); a body
    that is a non-empty object raises KeyError and a non-zero number raises
    TypeError. *)
Theorem epic_page_cases (py : builtins) (image_type api_key : string)
  (image_index : nat) :
  epic_page py Unreachable image_type api_key image_index = Ok NoEpicImages
  /\ epic_page py (JsonBody (JArr [])) image_type api_key image_index
     = Ok NoEpicImages
  /\ (forall images image,
        nth_error images image_index = Some image ->
        epic_page py (JsonBody (JArr images)) image_type api_key image_index
        = (url <- image_url py (image_type_param image_type) api_key image ;;
           time <- image_time image ;;
           Ok (EpicImage url time)))
  /\ (forall image,
        epic_page py (JsonBody (JArr [image])) image_type api_key image_index
        = (url <- image_url py (image_type_param image_type) api_key image ;;
           time <- image_time image ;;
           Ok (EpicImage url time)))
  /\ (forall kvs,
        kvs <> [] ->
        epic_page py (JsonBody (JObj kvs)) image_type api_key image_index
        = Raise KeyError)
  /\ (forall z,
        z <> 0%Z ->
        epic_page py (JsonBody (JInt z)) image_type api_key image_index
        = Raise TypeError).
Proof.
  split; [reflexivity |]. split; [reflexivity |].
  split; [| split; [| split]].
  - intros images image Hn. unfold epic_page, has_images, selected_image.
    cbn [fetch_nasa_data bind py_len].
    destruct images as [|x images]; [destruct image_index; discriminate Hn |].
    cbn [truthy bind List.length Nat.ltb Nat.leb].
    destruct images as [|y images].
    + destruct image_index as [|i];
        [| destruct i; discriminate Hn].
      cbn in Hn. injection Hn as <-. reflexivity.
    + cbn [List.length Nat.ltb Nat.leb subscript_idx]. rewrite Hn. reflexivity.
  - intro image. reflexivity.
  - intros kvs Hne. unfold epic_page, has_images, selected_image.
    cbn [fetch_nasa_data bind py_len].
    destruct kvs as [|kv kvs]; [contradiction Hne; reflexivity |].
    cbn [truthy bind List.length Nat.ltb Nat.leb].
    destruct kvs; reflexivity.
  - intros z Hz. unfold epic_page, has_images.
    cbn [fetch_nasa_data bind truthy].
    apply Z.eqb_neq in Hz. rewrite Hz. reflexivity.
Qed.

Lemma epic_page_witness :
  epic_page example_builtins (JsonBody (JArr example_images))
    "Enhanced Color" "DEMO_KEY" 1
  = Ok (EpicImage
          "https://api.nasa.gov/EPIC/archive/enhanced/2023/07/14/png/20230714020554_01.png?api_key=DEMO_KEY"
          "02:01:05").
Proof.
  rewrite (proj1 (proj2 (proj2 (epic_page_cases example_builtins
                                  "Enhanced Color" "DEMO_KEY" 1)))
             example_images
             (JObj [ ("identifier", JStr "20230714020554_01");
                     ("date", JStr "2023-07-14 02:01:05.250") ])
             eq_refl).
  reflexivity.
Defined.

(** X21: beside the image the centroid is required and the spacecraft
    position is optional: a descriptor without [centroid_coordinates]
    raises KeyError; with a latitude and a longitude that the float format
    takes (floats, booleans, ints that fit a float) and no
    [dscovr_j2000_position] the two numbers are shown and nothing else; a
    position that is present must have x, y and z, a missing x raising
    KeyError; a latitude given as text raises ValueError, and one given as
    an int too large for a float raises OverflowError. *)
Theorem image_metadata_cases (py : builtins) (kvs : dict) :
  (dict_get "centroid_coordinates" kvs = None ->
   image_metadata py (JObj kvs) = Raise KeyError)
  /\ (forall centroid lat lon,
        dict_get "centroid_coordinates" kvs = Some (JObj centroid) ->
        dict_get "lat" centroid = Some lat ->
        dict_get "lon" centroid = Some lon ->
        (format_f py lat = Ok lat ->
         format_f py lon = Ok lon ->
         (dict_get "dscovr_j2000_position" kvs = None ->
          image_metadata py (JObj kvs) = Ok (lat, lon, None))
         /\ (forall position,
               dict_get "dscovr_j2000_position" kvs = Some (JObj position) ->
               dict_get "x" position = None ->
               image_metadata py (JObj kvs) = Raise KeyError)
         /\ (forall position x y z,
               dict_get "dscovr_j2000_position" kvs = Some (JObj position) ->
               dict_get "x" position = Some x ->
               dict_get "y" position = Some y ->
               dict_get "z" position = Some z ->
               format_f py x = Ok x ->
               format_f py y = Ok y ->
               format_f py z = Ok z ->
               image_metadata py (JObj kvs) = Ok (lat, lon, Some (x, y, z))))
        /\ (forall s, lat = JStr s ->
                      image_metadata py (JObj kvs) = Raise ValueError)
        /\ (forall n, lat = JInt n ->
                      float_of_int py n = None ->
                      image_metadata py (JObj kvs) = Raise OverflowError)).
Proof.
  unfold image_metadata. cbn [subscript_path subscript subscript_key str_in].
  split.
  - intros ->. reflexivity.
  - intros centroid lat lon -> Hlat Hlon. cbn [bind subscript_key].
    rewrite Hlat, Hlon. cbn [bind]. split; [| split].
    + intros -> ->. cbn [bind]. unfold dict_mem. split; [| split].
      * intros ->. reflexivity.
      * intros position -> Hx. cbn [bind subscript_key]. rewrite Hx.
        reflexivity.
      * intros position x y z -> Hx Hy Hz Fx Fy Fz.
        cbn [bind subscript_key]. rewrite Hx, Hy, Hz. cbn [bind].
        rewrite Fx, Fy, Fz. reflexivity.
    + intros s ->. reflexivity.
    + intros n -> Hn. cbn [format_f]. rewrite Hn. reflexivity.
Qed.

Lemma image_metadata_witness :
  image_metadata example_builtins
    (JObj [ ("identifier", JStr "20230714001751_01");
            ("centroid_coordinates",
             JObj [ ("lat", JFloat 21.5%float); ("lon", JInt 172) ]);
            ("date", JStr "2023-07-14 00:13:03") ])
  = Ok (JFloat 21.5%float, JInt 172, None)
  /\ image_metadata example_builtins
       (JObj [ ("centroid_coordinates",
                JObj [ ("lat", JInt (10 ^ 400)); ("lon", JInt 172) ]) ])
     = Raise OverflowError.
Proof.
  split.
  - apply (proj1 (proj1 (proj2 (image_metadata_cases example_builtins
             [ ("identifier", JStr "20230714001751_01");
               ("centroid_coordinates",
                JObj [ ("lat", JFloat 21.5%float); ("lon", JInt 172) ]);
               ("date", JStr "2023-07-14 00:13:03") ])
             [ ("lat", JFloat 21.5%float); ("lon", JInt 172) ]
             (JFloat 21.5%float) (JInt 172)
             eq_refl eq_refl eq_refl) eq_refl eq_refl)).
    reflexivity.
  - apply (proj2 (proj2 (proj2 (image_metadata_cases example_builtins
             [ ("centroid_coordinates",
                JObj [ ("lat", JInt (10 ^ 400)); ("lon", JInt 172) ]) ])
             [ ("lat", JInt (10 ^ 400)); ("lon", JInt 172) ]
             (JInt (10 ^ 400)) (JInt 172)
             eq_refl eq_refl eq_refl)) (10 ^ 400)%Z eq_refl).
    vm_compute. reflexivity.
Defined.
